(** * Data-quality tests of evidently: a shallow embedding

    The development follows [src/evidently/tests/data_quality_tests.py].
    Python objects become records, optional attributes become [option],
    dictionaries become [gmap], and a method that may raise returns in
    the exception monad [Exc].  Numbers ([Numeric = Union[float, int]])
    are idealised as rationals: rounding, infinities and NaN are outside
    the model. *)

From Stdlib Require Import String List ZArith QArith Bool Lia Lqa.
From stdpp Require Import base option gmap strings.
Import ListNotations.

Local Open Scope string_scope.

(** ** Exceptions *)

Inductive Exception : Type :=
| ValueError (msg : string)
| KeyError (key : string)
| IndexError
| TypeError
| NotComputed.

Inductive Exc (A : Type) : Type :=
| Return (a : A)
| Raise (e : Exception).

Arguments Return {A} a.
Arguments Raise {A} e.

Global Instance Exc_ret : MRet Exc := fun A a => Return a.

Global Instance Exc_bind : MBind Exc := fun A B f m =>
  match m with
  | Return a => f a
  | Raise e => Raise e
  end.

Definition raises {A} (m : Exc A) : Prop := exists e, m = Raise e.

Definition returns {A} (m : Exc A) : Prop := exists a, m = Return a.

(** ** Numbers *)

Definition Numeric : Type := Q.

Bind Scope Q_scope with Numeric.

Definition Qltb (x y : Q) : bool := negb (Qle_bool y x).

Definition Qabs (x : Q) : Q := if Qle_bool 0 x then x else Qopp x.

Definition Qmaxb (x y : Q) : Q := if Qle_bool x y then y else x.

(** A statistic such as [min] or [max] is a number or a string; a
    Python [bool] is an [int] and is read as 0 or 1. *)
Inductive Scalar : Type :=
| Num (q : Numeric)
| Str (s : string).

Definition isinstance_str (v : option Scalar) : bool :=
  match v with
  | Some (Str _) => true
  | _ => false
  end.

(** ** Conditions *)

(** Modelled from the spec: [approx(value, relative=None, absolute=None)]
    of [evidently/tests/utils.py], which is not among the sources.  The
    approximation wrapper carries the expected value and a relative or
    an absolute tolerance; it is the record of its three arguments, the
    second positional argument being the relative tolerance. *)
Record ApproxValue : Type := approx {
  approx_value : option Numeric;
  approx_relative : option Numeric;
  approx_absolute : option Numeric
}.

Inductive EqTarget : Type :=
| Exact (v : Numeric)
| Approximately (a : ApproxValue).

Record TestValueCondition : Type := mkCondition {
  cond_eq : option EqTarget;
  cond_gt : option Numeric;
  cond_gte : option Numeric;
  cond_is_in : option (list Scalar);
  cond_lt : option Numeric;
  cond_lte : option Numeric;
  cond_not_eq : option EqTarget;
  cond_not_in : option (list Scalar)
}.

(** The condition with no field set, [TestValueCondition()]. *)
Definition empty_condition : TestValueCondition :=
  mkCondition None None None None None None None None.

Definition is_set {A} (o : option A) : bool :=
  match o with
  | Some _ => true
  | None => false
  end.

(** Modelled from the spec: [TestValueCondition.has_condition] lives in
    [evidently/tests/base_test.py], which is not among the sources; the
    spec calls a condition explicit when any of its fields is set. *)
Definition has_condition (c : TestValueCondition) : bool :=
  is_set (cond_eq c) || is_set (cond_gt c) || is_set (cond_gte c)
  || is_set (cond_is_in c) || is_set (cond_lt c) || is_set (cond_lte c)
  || is_set (cond_not_in c) || is_set (cond_not_eq c).

Definition scalar_eqb (a b : Scalar) : bool :=
  match a, b with
  | Num x, Num y => Qeq_bool x y
  | Str s, Str t => String.eqb s t
  | _, _ => false
  end.

Definition member (v : Numeric) (l : list Scalar) : bool :=
  existsb (scalar_eqb (Num v)) l.

(** Modelled from the spec: how a value is compared with an equality
    target.  Approximate equality is
    [|actual - expected| <= max(absolute, relative * |expected|)], an
    absent tolerance counting as zero. *)
Definition eq_holds (t : EqTarget) (v : Numeric) : bool :=
  match t with
  | Exact e => Qeq_bool v e
  | Approximately a =>
      match approx_value a with
      | Some e =>
          Qle_bool (Qabs (v - e))
            (Qmaxb (default 0%Q (approx_absolute a))
                   (default 0%Q (approx_relative a) * Qabs e))
      | None => false
      end
  end.

Definition holds {A} (p : A -> bool) (o : option A) : bool :=
  match o with
  | Some a => p a
  | None => true
  end.

(** Modelled from the spec: [TestValueCondition.check_value] is in the
    absent [base_test.py]; every field that is set must hold, the fields
    being combined conjunctively. *)
Definition check_value (c : TestValueCondition) (v : Numeric) : bool :=
  holds (fun t => eq_holds t v) (cond_eq c)
  && holds (fun b => Qltb b v) (cond_gt c)
  && holds (fun b => Qle_bool b v) (cond_gte c)
  && holds (member v) (cond_is_in c)
  && holds (fun b => Qltb v b) (cond_lt c)
  && holds (fun b => Qle_bool v b) (cond_lte c)
  && holds (fun t => negb (eq_holds t v)) (cond_not_eq c)
  && holds (fun l => negb (member v l)) (cond_not_in c).

(** ** Test results *)

Inductive Status : Type := SUCCESS | FAIL | ERROR | SKIPPED.

(** An f-string is kept as the list of its pieces: literal text and
    formatted fields, a field with a format specification keeping the
    specification next to the number. *)
Inductive Fragment : Type :=
| Lit (s : string)
| Plain (v : option Numeric)
| PlainScalar (v : Scalar)
| PlainStr (s : option string)
| Fmt (spec : string) (v : Numeric)
| OfCondition (c : TestValueCondition).

Definition Description : Type := list Fragment.

(** Formatting with a specification such as [.3g] fails on [None]. *)
Definition format_spec (spec : string) (v : option Numeric) : Exc Fragment :=
  match v with
  | Some q => Return (Fmt spec q)
  | None => Raise TypeError
  end.

Record TestResult : Type := mkTestResult {
  name : string;
  description : Description;
  status : Status;
  groups : gmap string (option string)
}.

(** Modelled from the spec: [TestResult.set_status] and the three
    [mark_as_*] helpers are in the absent [base_test.py]; each assigns
    the status it is named after and replaces the description when one
    is given. *)
Definition set_status (r : TestResult) (s : Status) (d : option Description)
  : TestResult :=
  {| name := name r;
     description := default (description r) d;
     status := s;
     groups := groups r |}.

Definition mark_as_fail (r : TestResult) (d : option Description) : TestResult :=
  set_status r FAIL d.

Definition mark_as_error (r : TestResult) (d : option Description) : TestResult :=
  set_status r ERROR d.

Definition mark_as_success (r : TestResult) (d : option Description) : TestResult :=
  set_status r SUCCESS d.

(** Modelled from the spec: [GroupingTypes.ByFeature.id] is declared in
    the absent [base_test.py]; the spec shows the key in
    [{"by_feature": "age"}]. *)
Definition ByFeature_id : string := "by_feature".

(** ** Metrics and their results *)

(** Modelled from the spec: the metric classes are not among the
    sources.  A metric holds the parameters fixed at construction and
    the result that the runner stores in it once; the result records
    below list the attributes that the tests read. *)
Record Metric (P R : Type) : Type := mkMetric {
  parameters : P;
  result : option R
}.

Arguments mkMetric {P R} parameters result.
Arguments parameters {P R} m.
Arguments result {P R} m.

(** Modelled from the spec: [Metric.get_result] is in the absent
    [base_metric.py]; asking for the result before the calculation fails
    with a not-computed error. *)
Definition get_result {P R} (m : Metric P R) : Exc R :=
  match result m with
  | Some r => Return r
  | None => Raise NotComputed
  end.

(** [d[key]] on a dictionary. *)
Definition getitem {A} (d : gmap string A) (key : string) : Exc A :=
  match d !! key with
  | Some a => Return a
  | None => Raise (KeyError key)
  end.

(** [key not in d]. *)
Definition not_in {A} (key : string) (d : gmap string A) : bool :=
  negb (is_set (d !! key)).

(** Modelled from the spec: [FeatureQualityStats] is declared outside
    the sources; these are the per-column statistics that the tests
    below read, each of them optional. *)
Record FeatureQualityStats : Type := mkFeatureQualityStats {
  stats_min : option Scalar;
  stats_max : option Scalar;
  mean : option Numeric;
  percentile_50 : option Numeric;
  std : option Numeric;
  unique_count : option Z;
  unique_percentage : option Numeric;
  most_common_value_percentage : option Numeric
}.

(** Modelled from the spec: [DataQualityStats] is declared outside the
    sources.  It holds the statistics of a dataset by column name:
    [get_all_features] gives the dictionary, and indexing the object
    looks a column up in it. *)
Record DataQualityStats : Type := mkDataQualityStats {
  get_all_features : gmap string FeatureQualityStats
}.

Definition stats_getitem (s : DataQualityStats) (column : string)
  : Exc FeatureQualityStats :=
  getitem (get_all_features s) column.

Record DataQualityMetricsResults : Type := mkDataQualityMetricsResults {
  features_stats : DataQualityStats;
  reference_features_stats : option DataQualityStats;
  counts_of_values : gmap string (gmap string (list (Scalar * Z)))
}.

Definition DataQualityMetrics : Type := Metric unit DataQualityMetricsResults.

Record DataQualityStabilityMetricsResults : Type := {
  number_not_stable_target : option Z;
  number_not_stable_prediction : option Z
}.

Definition DataQualityStabilityMetrics : Type :=
  Metric unit DataQualityStabilityMetricsResults.

Record DataCorrelation : Type := mkDataCorrelation {
  target_prediction_correlation : option Numeric;
  abs_max_target_features_correlation : option Numeric;
  abs_max_prediction_features_correlation : option Numeric;
  abs_max_num_features_correlation : option Numeric;
  correlation_matrix : list (list Numeric)
}.

Record DataQualityCorrelationMetricsResults : Type := mkCorrelationResults {
  current : DataCorrelation;
  reference : option DataCorrelation
}.

(** The parameter is the correlation method. *)
Definition DataQualityCorrelationMetrics : Type :=
  Metric string DataQualityCorrelationMetricsResults.

Record DataQualityValueRangeMetricsResults : Type := mkRangeResults {
  number_not_in_range : Z;
  share_not_in_range : Numeric;
  range_rows_count : Z
}.

(** The parameters are [column_name], [left] and [right]. *)
Definition DataQualityValueRangeMetrics : Type :=
  Metric (string * option Numeric * option Numeric)
         DataQualityValueRangeMetricsResults.

Record DataQualityValueListMetricsResults : Type := mkListResults {
  number_not_in_list : Z;
  share_not_in_list : Numeric;
  list_rows_count : Z
}.

(** The parameters are [column_name] and [values]. *)
Definition DataQualityValueListMetrics : Type :=
  Metric (string * option (list Scalar)) DataQualityValueListMetricsResults.

Record DataQualityValueQuantileMetricsResults : Type := mkQuantileResults {
  value : Numeric;
  ref_value : option Numeric
}.

(** The parameters are [column_name] and [quantile]. *)
Definition DataQualityValueQuantileMetrics : Type :=
  Metric (option string * Numeric) DataQualityValueQuantileMetricsResults.

(** ** The interface of a value check *)

(** [BaseCheckValueTest] leaves three methods to its subclasses and
    offers [groups], whose default is the empty mapping. *)
Class CheckValueTest (T : Type) : Type := {
  test_name : T -> string;
  condition : T -> TestValueCondition;
  get_condition : T -> Exc TestValueCondition;
  calculate_value_for_test : T -> Exc (option Numeric);
  get_description : T -> option Numeric -> Exc Description;
  test_groups : T -> gmap string (option string)
}.

(** Modelled from the spec: [BaseConditionsTest.__init__] is in the
    absent [base_test.py]; the keyword arguments become the fields of
    the stored condition. *)
Definition BaseConditionsTest_init
    (eq : option EqTarget) (gt gte : option Numeric)
    (is_in : option (list Scalar)) (lt lte : option Numeric)
    (not_eq : option EqTarget) (not_in : option (list Scalar))
  : TestValueCondition :=
  mkCondition eq gt gte is_in lt lte not_eq not_in.

(** Modelled from the spec: [BaseCheckValueTest.check] is in the absent
    [base_test.py].  The condition is resolved, the value is computed,
    an absent value gives ERROR, otherwise the condition decides between
    SUCCESS and FAIL; the description comes from the subclass and the
    groups of the test are merged into the result.  The second component
    is the value left in [self.value]. *)
Definition BaseCheckValueTest_check {T} `{CheckValueTest T} (self : T)
  : Exc (TestResult * option Numeric) :=
  c ← get_condition self;
  v ← calculate_value_for_test self;
  d ← get_description self v;
  let st :=
    match v with
    | None => ERROR
    | Some x => if check_value c x then SUCCESS else FAIL
    end in
  mret ({| name := test_name self;
           description := d;
           status := st;
           groups := test_groups self |}, v).

(** ** Tests on the stability metric *)

Module TestConflictTarget.

Definition name : string := "Test number of conflicts in target".

Record t : Type := init { metric : DataQualityStabilityMetrics }.

Definition check (self : t) : Exc TestResult :=
  metric_result ← get_result (metric self);
  let '(test_result, description) :=
    match number_not_stable_target metric_result with
    | None => (ERROR, [Lit "No target in the dataset"])
    | Some n =>
        if (0 <? n)%Z
        then (FAIL, [Lit "Not stable target rows count is ";
                     Plain (Some (inject_Z n))])
        else (SUCCESS, [Lit "Target is stable"])
    end in
  mret (mkTestResult name description test_result ∅).

End TestConflictTarget.

Module TestConflictPrediction.

Definition name : string := "Test number of conflicts in prediction".

Record t : Type := init { metric : DataQualityStabilityMetrics }.

Definition check (self : t) : Exc TestResult :=
  metric_result ← get_result (metric self);
  let '(test_result, description) :=
    match number_not_stable_prediction metric_result with
    | None => (ERROR, [Lit "No prediction in the dataset"])
    | Some n =>
        if (0 <? n)%Z
        then (FAIL, [Lit "Not stable prediction rows count is ";
                     Plain (Some (inject_Z n))])
        else (SUCCESS, [Lit "Prediction is stable"])
    end in
  mret (mkTestResult name description test_result ∅).

End TestConflictPrediction.


(** ** Tests on the correlation metric *)

Inductive CorrelationsTestClass : Type :=
| TestTargetPredictionCorrelation
| TestHighlyCorrelatedFeatures
| TestTargetFeaturesCorrelations
| TestPredictionFeaturesCorrelations
| TestCorrelationChanges (corr_diff : Numeric).

Module BaseDataQualityCorrelationsMetricsValueTest.

Record t : Type := mk {
  cls : CorrelationsTestClass;
  method : string;
  condition : TestValueCondition;
  metric : DataQualityCorrelationMetrics
}.

Definition init (cls : CorrelationsTestClass) (method : string)
    (eq : option EqTarget) (gt gte : option Numeric)
    (is_in : option (list Scalar)) (lt lte : option Numeric)
    (not_eq : option EqTarget) (not_in : option (list Scalar))
    (metric : option DataQualityCorrelationMetrics) : t :=
  {| cls := cls;
     method := method;
     metric := match metric with
               | Some m => m
               | None => mkMetric method None
               end;
     condition := BaseConditionsTest_init eq gt gte is_in lt lte not_eq not_in |}.

End BaseDataQualityCorrelationsMetricsValueTest.

Module BaseCorr := BaseDataQualityCorrelationsMetricsValueTest.

(** The reference-derived condition shared by the correlation checks:
    the reference statistic, when there is one, wrapped by [approx]. *)
Definition condition_eq (a : ApproxValue) : TestValueCondition :=
  mkCondition (Some (Approximately a)) None None None None None None None.

Definition condition_gt (b : Numeric) : TestValueCondition :=
  mkCondition None (Some b) None None None None None None.

Definition condition_lt (b : Numeric) : TestValueCondition :=
  mkCondition None None None None (Some b) None None None.

Module TestTargetPredictionCorrelation.

Definition name : string := "Correlation between Target and Prediction".

Definition get_condition (self : BaseCorr.t) : Exc TestValueCondition :=
  if has_condition (BaseCorr.condition self) then mret (BaseCorr.condition self)
  else
    r ← get_result (BaseCorr.metric self);
    match reference r with
    | Some reference_correlation =>
        match target_prediction_correlation reference_correlation with
        | Some value =>
            mret (condition_eq (approx (Some value) None (Some (25 # 100)%Q)))
        | None => mret (condition_gt 0%Q)
        end
    | None => mret (condition_gt 0%Q)
    end.

Definition calculate_value_for_test (self : BaseCorr.t) : Exc (option Numeric) :=
  r ← get_result (BaseCorr.metric self);
  mret (target_prediction_correlation (current r)).

Definition get_description (self : BaseCorr.t) (value : option Numeric)
  : Exc Description :=
  match value with
  | None => mret [Lit "No target or prediction in the dataset."]
  | Some v =>
      c ← get_condition self;
      mret [Lit "The correlation between the target and prediction is ";
            Fmt ".3" v; Lit ". "; Lit "The test threshold is ";
            OfCondition c; Lit "."]
  end.

End TestTargetPredictionCorrelation.

Module TestHighlyCorrelatedFeatures.

Definition name : string := "Highly Correlated Features".

Definition get_condition (self : BaseCorr.t) : Exc TestValueCondition :=
  if has_condition (BaseCorr.condition self) then mret (BaseCorr.condition self)
  else
    r ← get_result (BaseCorr.metric self);
    match reference r with
    | Some reference_correlation =>
        match abs_max_num_features_correlation reference_correlation with
        | Some value =>
            mret (condition_eq (approx (Some value) (Some (1 # 10)%Q) None))
        | None => mret (condition_lt (9 # 10)%Q)
        end
    | None => mret (condition_lt (9 # 10)%Q)
    end.

Definition calculate_value_for_test (self : BaseCorr.t) : Exc (option Numeric) :=
  r ← get_result (BaseCorr.metric self);
  mret (abs_max_num_features_correlation (current r)).

Definition get_description (self : BaseCorr.t) (value : option Numeric)
  : Exc Description :=
  f ← format_spec ".3g" value;
  c ← get_condition self;
  mret [Lit "The maximum correlation is "; f;
        Lit ". The test threshold is "; OfCondition c; Lit "."].

End TestHighlyCorrelatedFeatures.

Module TestTargetFeaturesCorrelations.

Definition name : string := "Correlation between Target and Features".

Definition get_condition (self : BaseCorr.t) : Exc TestValueCondition :=
  if has_condition (BaseCorr.condition self) then mret (BaseCorr.condition self)
  else
    r ← get_result (BaseCorr.metric self);
    match reference r with
    | Some reference_correlation =>
        match abs_max_target_features_correlation reference_correlation with
        | Some value =>
            mret (condition_eq (approx (Some value) (Some (1 # 10)%Q) None))
        | None => mret (condition_lt (9 # 10)%Q)
        end
    | None => mret (condition_lt (9 # 10)%Q)
    end.

Definition calculate_value_for_test (self : BaseCorr.t) : Exc (option Numeric) :=
  r ← get_result (BaseCorr.metric self);
  mret (abs_max_target_features_correlation (current r)).

Definition get_description (self : BaseCorr.t) (value : option Numeric)
  : Exc Description :=
  match value with
  | None => mret [Lit "No target in the current dataset"]
  | Some v =>
      c ← get_condition self;
      mret [Lit "The maximum correlation is "; Fmt ".3g" v;
            Lit ". The test threshold is "; OfCondition c; Lit "."]
  end.

End TestTargetFeaturesCorrelations.

Module TestPredictionFeaturesCorrelations.

Definition name : string := "Correlation between Prediction and Features".

Definition get_condition (self : BaseCorr.t) : Exc TestValueCondition :=
  if has_condition (BaseCorr.condition self) then mret (BaseCorr.condition self)
  else
    r ← get_result (BaseCorr.metric self);
    match reference r with
    | Some reference_correlation =>
        match abs_max_prediction_features_correlation reference_correlation with
        | Some value =>
            mret (condition_eq (approx (Some value) (Some (1 # 10)%Q) None))
        | None => mret (condition_lt (9 # 10)%Q)
        end
    | None => mret (condition_lt (9 # 10)%Q)
    end.

Definition calculate_value_for_test (self : BaseCorr.t) : Exc (option Numeric) :=
  r ← get_result (BaseCorr.metric self);
  mret (abs_max_prediction_features_correlation (current r)).

Definition get_description (self : BaseCorr.t) (value : option Numeric)
  : Exc Description :=
  match value with
  | None => mret [Lit "No prediction in the current dataset"]
  | Some v =>
      c ← get_condition self;
      mret [Lit "The maximum correlation is "; Fmt ".3g" v;
            Lit ". The test threshold is "; OfCondition c; Lit "."]
  end.

End TestPredictionFeaturesCorrelations.

(** The number of entries of two matrices, taken position by position,
    that differ by more than [d]. *)
Definition count_violations (ref cur : list (list Numeric)) (d : Numeric) : nat :=
  list_sum
    (map (fun rc : list Numeric * list Numeric =>
            length (List.filter
                      (fun xy : Numeric * Numeric =>
                         Qltb d (Qabs (fst xy - snd xy)%Q))
                      (combine (fst rc) (snd rc))))
         (combine ref cur)).

Module TestCorrelationChanges.

Definition name : string := "Change in Correlation".

Definition init (corr_diff : Numeric) (method : string)
    (eq : option EqTarget) (gt gte : option Numeric)
    (is_in : option (list Scalar)) (lt lte : option Numeric)
    (not_eq : option EqTarget) (not_in : option (list Scalar))
    (metric : option DataQualityCorrelationMetrics) : BaseCorr.t :=
  BaseCorr.init (TestCorrelationChanges corr_diff) method
    eq gt gte is_in lt lte not_eq not_in metric.

Definition get_condition (self : BaseCorr.t) : Exc TestValueCondition :=
  if has_condition (BaseCorr.condition self) then mret (BaseCorr.condition self)
  else mret (mkCondition (Some (Exact 0%Q)) None None None None None None None).

Definition calculate_value_for_test (corr_diff : Numeric) (self : BaseCorr.t)
  : Exc (option Numeric) :=
  r ← get_result (BaseCorr.metric self);
  match reference r with
  | None => Raise (ValueError "Reference should be present")
  | Some reference_correlation =>
      let n := count_violations (correlation_matrix reference_correlation)
                                (correlation_matrix (current r)) corr_diff in
      mret (Some (inject_Z (Z.of_nat n) / 2)%Q)
  end.

Definition get_description (self : BaseCorr.t) (value : option Numeric)
  : Exc Description :=
  f ← format_spec ".3g" value;
  c ← get_condition self;
  mret [Lit "Number of correlation violations is "; f;
        Lit ". The test threshold is "; OfCondition c; Lit "."].

End TestCorrelationChanges.

Global Instance correlations_test : CheckValueTest BaseCorr.t := {|
  test_name self :=
    match BaseCorr.cls self with
    | TestTargetPredictionCorrelation => TestTargetPredictionCorrelation.name
    | TestHighlyCorrelatedFeatures => TestHighlyCorrelatedFeatures.name
    | TestTargetFeaturesCorrelations => TestTargetFeaturesCorrelations.name
    | TestPredictionFeaturesCorrelations => TestPredictionFeaturesCorrelations.name
    | TestCorrelationChanges _ => TestCorrelationChanges.name
    end;
  condition := BaseCorr.condition;
  get_condition self :=
    match BaseCorr.cls self with
    | TestTargetPredictionCorrelation =>
        TestTargetPredictionCorrelation.get_condition self
    | TestHighlyCorrelatedFeatures =>
        TestHighlyCorrelatedFeatures.get_condition self
    | TestTargetFeaturesCorrelations =>
        TestTargetFeaturesCorrelations.get_condition self
    | TestPredictionFeaturesCorrelations =>
        TestPredictionFeaturesCorrelations.get_condition self
    | TestCorrelationChanges _ => TestCorrelationChanges.get_condition self
    end;
  calculate_value_for_test self :=
    match BaseCorr.cls self with
    | TestTargetPredictionCorrelation =>
        TestTargetPredictionCorrelation.calculate_value_for_test self
    | TestHighlyCorrelatedFeatures =>
        TestHighlyCorrelatedFeatures.calculate_value_for_test self
    | TestTargetFeaturesCorrelations =>
        TestTargetFeaturesCorrelations.calculate_value_for_test self
    | TestPredictionFeaturesCorrelations =>
        TestPredictionFeaturesCorrelations.calculate_value_for_test self
    | TestCorrelationChanges corr_diff =>
        TestCorrelationChanges.calculate_value_for_test corr_diff self
    end;
  get_description self :=
    match BaseCorr.cls self with
    | TestTargetPredictionCorrelation =>
        TestTargetPredictionCorrelation.get_description self
    | TestHighlyCorrelatedFeatures =>
        TestHighlyCorrelatedFeatures.get_description self
    | TestTargetFeaturesCorrelations =>
        TestTargetFeaturesCorrelations.get_description self
    | TestPredictionFeaturesCorrelations =>
        TestPredictionFeaturesCorrelations.get_description self
    | TestCorrelationChanges _ => TestCorrelationChanges.get_description self
    end;
  test_groups _ := ∅
|}.


(** ** Per-feature tests on the data-quality metric *)

Inductive FeatureTestClass : Type :=
| TestFeatureValueMin
| TestFeatureValueMax
| TestFeatureValueMean
| TestFeatureValueMedian
| TestFeatureValueStd
| TestNumberOfUniqueValues
| TestUniqueValuesShare
| TestMostCommonValueShare.

Module BaseFeatureDataQualityMetricsTest.

Record t : Type := mk {
  cls : FeatureTestClass;
  column_name : string;
  condition : TestValueCondition;
  metric : DataQualityMetrics
}.

Definition init (cls : FeatureTestClass) (column_name : string)
    (eq : option EqTarget) (gt gte : option Numeric)
    (is_in : option (list Scalar)) (lt lte : option Numeric)
    (not_eq : option EqTarget) (not_in : option (list Scalar))
    (metric : option DataQualityMetrics) : t :=
  {| cls := cls;
     column_name := column_name;
     metric := match metric with
               | Some m => m
               | None => mkMetric tt None
               end;
     condition := BaseConditionsTest_init eq gt gte is_in lt lte not_eq not_in |}.

Definition groups (self : t) : gmap string (option string) :=
  {[ ByFeature_id := Some (column_name self) ]}.

End BaseFeatureDataQualityMetricsTest.

Module BaseFeature := BaseFeatureDataQualityMetricsTest.

Definition no_parameters_no_reference : Exception :=
  ValueError "Neither required test parameters nor reference data has been provided.".

Definition should_be_numerical (column_name : string) : Exception :=
  ValueError (column_name ++ " should be numerical or bool").

(** The number held by a statistic that is not a string. *)
Definition numeric_of (v : option Scalar) : option Numeric :=
  match v with
  | Some (Num q) => Some q
  | _ => None
  end.

Definition threshold (c : TestValueCondition) : Description :=
  [Lit "The test threshold is "; OfCondition c; Lit "."].

Module TestFeatureValueMin.

Definition name : string := "Min Value".

Definition get_condition (self : BaseFeature.t) : Exc TestValueCondition :=
  if has_condition (BaseFeature.condition self) then mret (BaseFeature.condition self)
  else
    r ← get_result (BaseFeature.metric self);
    match reference_features_stats r with
    | Some ref_features_stats =>
        fs ← getitem (get_all_features ref_features_stats)
                     (BaseFeature.column_name self);
        let min_value := stats_min fs in
        if isinstance_str min_value
        then Raise (should_be_numerical (BaseFeature.column_name self))
        else mret (mkCondition None None (numeric_of min_value)
                               None None None None None)
    | None => Raise no_parameters_no_reference
    end.

Definition calculate_value_for_test (self : BaseFeature.t) : Exc (option Numeric) :=
  r ← get_result (BaseFeature.metric self);
  fs ← getitem (get_all_features (features_stats r)) (BaseFeature.column_name self);
  let min_value := stats_min fs in
  if isinstance_str min_value
  then Raise (should_be_numerical (BaseFeature.column_name self))
  else mret (numeric_of min_value).

Definition get_description (self : BaseFeature.t) (value : option Numeric)
  : Exc Description :=
  c ← get_condition self;
  mret ([Lit "The minimum value of the column **";
         Lit (BaseFeature.column_name self); Lit "** is "; Plain value;
         Lit " "] ++ threshold c)%list.

End TestFeatureValueMin.

Module TestFeatureValueMax.

Definition name : string := "Test a feature max value".

Definition get_condition (self : BaseFeature.t) : Exc TestValueCondition :=
  if has_condition (BaseFeature.condition self) then mret (BaseFeature.condition self)
  else
    r ← get_result (BaseFeature.metric self);
    match reference_features_stats r with
    | Some ref_features_stats =>
        fs ← getitem (get_all_features ref_features_stats)
                     (BaseFeature.column_name self);
        let max_value := stats_max fs in
        if isinstance_str max_value
        then Raise (should_be_numerical (BaseFeature.column_name self))
        else mret (mkCondition None None None None None
                               (numeric_of max_value) None None)
    | None => Raise no_parameters_no_reference
    end.

Definition calculate_value_for_test (self : BaseFeature.t) : Exc (option Numeric) :=
  r ← get_result (BaseFeature.metric self);
  fs ← getitem (get_all_features (features_stats r)) (BaseFeature.column_name self);
  let max_value := stats_max fs in
  if isinstance_str max_value
  then Raise (should_be_numerical (BaseFeature.column_name self))
  else mret (numeric_of max_value).

Definition get_description (self : BaseFeature.t) (value : option Numeric)
  : Exc Description :=
  c ← get_condition self;
  mret ([Lit "The maximum value of the column **";
         Lit (BaseFeature.column_name self); Lit "** is "; Plain value;
         Lit ". "] ++ threshold c)%list.

End TestFeatureValueMax.

Module TestFeatureValueMean.

Definition name : string := "Mean Value".

Definition get_condition (self : BaseFeature.t) : Exc TestValueCondition :=
  if has_condition (BaseFeature.condition self) then mret (BaseFeature.condition self)
  else
    r ← get_result (BaseFeature.metric self);
    match reference_features_stats r with
    | Some ref_features_stats =>
        fs ← getitem (get_all_features ref_features_stats)
                     (BaseFeature.column_name self);
        mret (condition_eq (approx (mean fs) (Some (1 # 10)%Q) None))
    | None => Raise no_parameters_no_reference
    end.

Definition calculate_value_for_test (self : BaseFeature.t) : Exc (option Numeric) :=
  r ← get_result (BaseFeature.metric self);
  fs ← getitem (get_all_features (features_stats r)) (BaseFeature.column_name self);
  mret (mean fs).

Definition get_description (self : BaseFeature.t) (value : option Numeric)
  : Exc Description :=
  f ← format_spec ".3g" value;
  c ← get_condition self;
  mret ([Lit "The mean value of the column **";
         Lit (BaseFeature.column_name self); Lit "** is "; f; Lit ". "]
        ++ threshold c)%list.

End TestFeatureValueMean.

Module TestFeatureValueMedian.

Definition name : string := "Median Value".

Definition get_condition (self : BaseFeature.t) : Exc TestValueCondition :=
  if has_condition (BaseFeature.condition self) then mret (BaseFeature.condition self)
  else
    r ← get_result (BaseFeature.metric self);
    match reference_features_stats r with
    | Some ref_features_stats =>
        fs ← getitem (get_all_features ref_features_stats)
                     (BaseFeature.column_name self);
        mret (condition_eq (approx (percentile_50 fs) (Some (1 # 10)%Q) None))
    | None => Raise no_parameters_no_reference
    end.

Definition calculate_value_for_test (self : BaseFeature.t) : Exc (option Numeric) :=
  r ← get_result (BaseFeature.metric self);
  fs ← getitem (get_all_features (features_stats r)) (BaseFeature.column_name self);
  mret (percentile_50 fs).

Definition get_description (self : BaseFeature.t) (value : option Numeric)
  : Exc Description :=
  f ← format_spec ".3g" value;
  c ← get_condition self;
  mret ([Lit "The median value of the column **";
         Lit (BaseFeature.column_name self); Lit "** is "; f; Lit ". "]
        ++ threshold c)%list.

End TestFeatureValueMedian.

Module TestFeatureValueStd.

Definition name : string := "Standard Deviation (SD)".

Definition get_condition (self : BaseFeature.t) : Exc TestValueCondition :=
  if has_condition (BaseFeature.condition self) then mret (BaseFeature.condition self)
  else
    r ← get_result (BaseFeature.metric self);
    match reference_features_stats r with
    | Some ref_features_stats =>
        fs ← getitem (get_all_features ref_features_stats)
                     (BaseFeature.column_name self);
        mret (condition_eq (approx (std fs) (Some (1 # 10)%Q) None))
    | None => Raise no_parameters_no_reference
    end.

Definition calculate_value_for_test (self : BaseFeature.t) : Exc (option Numeric) :=
  r ← get_result (BaseFeature.metric self);
  fs ← getitem (get_all_features (features_stats r)) (BaseFeature.column_name self);
  mret (std fs).

Definition get_description (self : BaseFeature.t) (value : option Numeric)
  : Exc Description :=
  f ← format_spec ".3g" value;
  c ← get_condition self;
  mret ([Lit "The standard deviation of the column **";
         Lit (BaseFeature.column_name self); Lit "** is "; f; Lit ". "]
        ++ threshold c)%list.

End TestFeatureValueStd.

Module TestNumberOfUniqueValues.

Definition name : string := "Number of Unique Values".

Definition get_condition (self : BaseFeature.t) : Exc TestValueCondition :=
  if has_condition (BaseFeature.condition self) then mret (BaseFeature.condition self)
  else
    r ← get_result (BaseFeature.metric self);
    match reference_features_stats r with
    | Some reference_features_stats =>
        fs ← getitem (get_all_features reference_features_stats)
                     (BaseFeature.column_name self);
        mret (condition_eq
                (approx (inject_Z <$> unique_count fs) (Some (1 # 10)%Q) None))
    | None => mret (condition_gt 1%Q)
    end.

Definition calculate_value_for_test (self : BaseFeature.t) : Exc (option Numeric) :=
  r ← get_result (BaseFeature.metric self);
  fs ← getitem (get_all_features (features_stats r)) (BaseFeature.column_name self);
  mret (inject_Z <$> unique_count fs).

Definition get_description (self : BaseFeature.t) (value : option Numeric)
  : Exc Description :=
  c ← get_condition self;
  mret ([Lit "The number of the unique values in the column **";
         Lit (BaseFeature.column_name self); Lit "** is "; Plain value;
         Lit ". "] ++ threshold c)%list.

End TestNumberOfUniqueValues.

Definition percent (p : Numeric) : Numeric := (p / 100)%Q.

Module TestUniqueValuesShare.

Definition name : string := "Share of Unique Values".

Definition get_condition (self : BaseFeature.t) : Exc TestValueCondition :=
  if has_condition (BaseFeature.condition self) then mret (BaseFeature.condition self)
  else
    r ← get_result (BaseFeature.metric self);
    match reference_features_stats r with
    | Some reference_features_stats =>
        fs ← getitem (get_all_features reference_features_stats)
                     (BaseFeature.column_name self);
        match unique_percentage fs with
        | Some p =>
            mret (condition_eq
                    (approx (Some (percent p)) (Some (1 # 10)%Q) None))
        | None => Raise no_parameters_no_reference
        end
    | None => Raise no_parameters_no_reference
    end.

Definition calculate_value_for_test (self : BaseFeature.t) : Exc (option Numeric) :=
  r ← get_result (BaseFeature.metric self);
  fs ← getitem (get_all_features (features_stats r)) (BaseFeature.column_name self);
  mret (percent <$> unique_percentage fs).

Definition get_description (self : BaseFeature.t) (value : option Numeric)
  : Exc Description :=
  f ← format_spec ".3" value;
  c ← get_condition self;
  mret ([Lit "The share of the unique values in the column **";
         Lit (BaseFeature.column_name self); Lit "** is "; f; Lit ". "]
        ++ threshold c)%list.

End TestUniqueValuesShare.

(** [table.iloc[0, 0]]: the first cell of a table of values and counts. *)
Definition iloc_0_0 (table : list (Scalar * Z)) : Exc Scalar :=
  match table with
  | row :: _ => Return (fst row)
  | [] => Raise IndexError
  end.

Module TestMostCommonValueShare.

Definition name : string := "Share of the Most Common Value".

Definition get_condition (self : BaseFeature.t) : Exc TestValueCondition :=
  if has_condition (BaseFeature.condition self) then mret (BaseFeature.condition self)
  else
    r ← get_result (BaseFeature.metric self);
    match reference_features_stats r with
    | Some reference_features_stats =>
        fs ← getitem (get_all_features reference_features_stats)
                     (BaseFeature.column_name self);
        match most_common_value_percentage fs with
        | Some p =>
            mret (condition_eq
                    (approx (Some (percent p)) (Some (1 # 10)%Q) None))
        | None => mret (condition_lt (8 # 10)%Q)
        end
    | None => mret (condition_lt (8 # 10)%Q)
    end.

Definition calculate_value_for_test (self : BaseFeature.t) : Exc (option Numeric) :=
  r ← get_result (BaseFeature.metric self);
  fs ← getitem (get_all_features (features_stats r)) (BaseFeature.column_name self);
  mret (percent <$> most_common_value_percentage fs).

Definition get_description (self : BaseFeature.t) (value : option Numeric)
  : Exc Description :=
  r ← get_result (BaseFeature.metric self);
  tables ← getitem (counts_of_values r) (BaseFeature.column_name self);
  table ← getitem tables "current";
  most_common_value ← iloc_0_0 table;
  f ← format_spec ".3g" value;
  c ← get_condition self;
  mret ([Lit "The most common value in the column **";
         Lit (BaseFeature.column_name self); Lit "** is ";
         PlainScalar most_common_value; Lit ". "; Lit "Its share is "; f;
         Lit ". "] ++ threshold c)%list.

End TestMostCommonValueShare.

Global Instance feature_test : CheckValueTest BaseFeature.t := {|
  test_name self :=
    match BaseFeature.cls self with
    | TestFeatureValueMin => TestFeatureValueMin.name
    | TestFeatureValueMax => TestFeatureValueMax.name
    | TestFeatureValueMean => TestFeatureValueMean.name
    | TestFeatureValueMedian => TestFeatureValueMedian.name
    | TestFeatureValueStd => TestFeatureValueStd.name
    | TestNumberOfUniqueValues => TestNumberOfUniqueValues.name
    | TestUniqueValuesShare => TestUniqueValuesShare.name
    | TestMostCommonValueShare => TestMostCommonValueShare.name
    end;
  condition := BaseFeature.condition;
  get_condition self :=
    match BaseFeature.cls self with
    | TestFeatureValueMin => TestFeatureValueMin.get_condition self
    | TestFeatureValueMax => TestFeatureValueMax.get_condition self
    | TestFeatureValueMean => TestFeatureValueMean.get_condition self
    | TestFeatureValueMedian => TestFeatureValueMedian.get_condition self
    | TestFeatureValueStd => TestFeatureValueStd.get_condition self
    | TestNumberOfUniqueValues => TestNumberOfUniqueValues.get_condition self
    | TestUniqueValuesShare => TestUniqueValuesShare.get_condition self
    | TestMostCommonValueShare => TestMostCommonValueShare.get_condition self
    end;
  calculate_value_for_test self :=
    match BaseFeature.cls self with
    | TestFeatureValueMin => TestFeatureValueMin.calculate_value_for_test self
    | TestFeatureValueMax => TestFeatureValueMax.calculate_value_for_test self
    | TestFeatureValueMean => TestFeatureValueMean.calculate_value_for_test self
    | TestFeatureValueMedian => TestFeatureValueMedian.calculate_value_for_test self
    | TestFeatureValueStd => TestFeatureValueStd.calculate_value_for_test self
    | TestNumberOfUniqueValues =>
        TestNumberOfUniqueValues.calculate_value_for_test self
    | TestUniqueValuesShare => TestUniqueValuesShare.calculate_value_for_test self
    | TestMostCommonValueShare =>
        TestMostCommonValueShare.calculate_value_for_test self
    end;
  get_description self :=
    match BaseFeature.cls self with
    | TestFeatureValueMin => TestFeatureValueMin.get_description self
    | TestFeatureValueMax => TestFeatureValueMax.get_description self
    | TestFeatureValueMean => TestFeatureValueMean.get_description self
    | TestFeatureValueMedian => TestFeatureValueMedian.get_description self
    | TestFeatureValueStd => TestFeatureValueStd.get_description self
    | TestNumberOfUniqueValues => TestNumberOfUniqueValues.get_description self
    | TestUniqueValuesShare => TestUniqueValuesShare.get_description self
    | TestMostCommonValueShare => TestMostCommonValueShare.get_description self
    end;
  test_groups := BaseFeature.groups
|}.

Definition feature_not_found (column_name : string) : Description :=
  [Lit "Feature '"; Lit column_name; Lit "' was not found"].

Definition no_value_for_feature (column_name : string) : Description :=
  [Lit "No value for the feature '"; Lit column_name; Lit "'"].

(** [BaseFeatureDataQualityMetricsTest.check]; the second component is
    [self.value], which only the inherited check assigns. *)
Definition BaseFeatureDataQualityMetricsTest_check (self : BaseFeature.t)
  : Exc (TestResult * option Numeric) :=
  let result :=
    mkTestResult (test_name self) [Lit "The test was not launched"] SKIPPED ∅ in
  r ← get_result (BaseFeature.metric self);
  let features_stats := get_all_features (features_stats r) in
  if not_in (BaseFeature.column_name self) features_stats
  then mret (mark_as_fail result
               (Some (feature_not_found (BaseFeature.column_name self))), None)
  else
    rv ← BaseCheckValueTest_check self;
    match snd rv with
    | None =>
        mret (mark_as_error (fst rv)
                (Some (no_value_for_feature (BaseFeature.column_name self))),
              None)
    | Some _ => mret rv
    end.


(** ** Test generators *)

(** Modelled from the spec: [DatasetColumns] is declared outside the
    sources; it is the column catalogue with its lists of feature
    names, as far as the generators read it. *)
Record DatasetColumns : Type := mkDatasetColumns {
  num_feature_names : list string;
  cat_feature_names : list string;
  get_all_columns_list : list string
}.

Module TestAllColumnsMostCommonValueShare.

Definition generate_tests (columns_info : DatasetColumns) : list BaseFeature.t :=
  map (fun name =>
         BaseFeature.init TestMostCommonValueShare name
           None None None None None None None None None)
      (get_all_columns_list columns_info).

End TestAllColumnsMostCommonValueShare.

(** ** Mean value stability *)

(** Arithmetic and comparison on a value that may be [None]. *)
Definition py_mul (a : option Numeric) (n : Z) : Exc Numeric :=
  match a with
  | Some x => Return (x * inject_Z n)%Q
  | None => Raise TypeError
  end.

Definition py_sub (a : option Numeric) (b : Numeric) : Exc Numeric :=
  match a with
  | Some x => Return (x - b)%Q
  | None => Raise TypeError
  end.

Definition py_add (a : option Numeric) (b : Numeric) : Exc Numeric :=
  match a with
  | Some x => Return (x + b)%Q
  | None => Raise TypeError
  end.

(** [left < x < right], the chained comparison. *)
Definition py_between (left : Numeric) (x : option Numeric) (right : Numeric)
  : Exc bool :=
  match x with
  | Some v => Return (Qltb left v && Qltb v right)
  | None => Raise TypeError
  end.

Module TestMeanInNSigmas.

Definition name : string := "Mean Value Stability".

Record t : Type := mk {
  column_name : string;
  n_sigmas : Z;
  metric : DataQualityMetrics
}.

Definition init (column_name : string) (n_sigmas : Z)
    (metric : option DataQualityMetrics) : t :=
  {| column_name := column_name;
     n_sigmas := n_sigmas;
     metric := match metric with
               | Some m => m
               | None => mkMetric tt None
               end |}.

Definition expected_range (self : t) (current_mean : Fragment)
    (left_condition right_condition : Numeric) : Description :=
  [Lit "The mean value of the column **"; Lit (column_name self);
   Lit "** is "; current_mean; Lit "."; Lit " The expected range is from ";
   Fmt ".3g" left_condition; Lit " to "; Fmt ".3g" right_condition].

Definition check (self : t) : Exc TestResult :=
  r ← get_result (metric self);
  let reference_feature_stats := reference_features_stats r in
  let features_stats := features_stats r in
  match reference_feature_stats with
  | None => Raise (ValueError "Reference should be present")
  | Some reference_feature_stats =>
      dt ←
        ((if not_in (column_name self) (get_all_features features_stats)
         then mret ([Lit "Column "; Lit (column_name self);
                     Lit " should be in current data"], ERROR)
         else if not_in (column_name self)
                        (get_all_features reference_feature_stats)
         then mret ([Lit "Column "; Lit (column_name self);
                     Lit " should be in reference data"], ERROR)
         else
           cur ← stats_getitem features_stats (column_name self);
           let current_mean := mean cur in
           ref ← stats_getitem reference_feature_stats (column_name self);
           let reference_mean := mean ref in
           let reference_std := std ref in
           sigmas_value ← py_mul reference_std (n_sigmas self);
           left_condition ← py_sub reference_mean sigmas_value;
           right_condition ← py_add reference_mean sigmas_value;
           inside ← py_between left_condition current_mean right_condition;
           f ← format_spec ".3g" current_mean;
           if (inside : bool)
           then mret (expected_range self f left_condition right_condition,
                      SUCCESS)
           else mret (expected_range self f left_condition right_condition,
                      FAIL)) : Exc (Description * Status));
      mret (mkTestResult name (fst dt) (snd dt)
              {[ ByFeature_id := Some (column_name self) ]})
  end.

End TestMeanInNSigmas.

Module TestNumColumnsMeanInNSigmas.

Definition generate_tests (columns_info : DatasetColumns)
  : list TestMeanInNSigmas.t :=
  map (fun name => TestMeanInNSigmas.init name 2 None)
      (num_feature_names columns_info).

End TestNumColumnsMeanInNSigmas.


(** ** Tests on the value-range metric *)

Module TestValueRange.

Definition name : string := "Value Range".

Record t : Type := mk {
  column_name : string;
  left : option Numeric;
  right : option Numeric;
  metric : DataQualityValueRangeMetrics
}.

Definition init (column_name : string) (left right : option Numeric)
    (metric : option DataQualityValueRangeMetrics) : t :=
  {| column_name := column_name;
     left := left;
     right := right;
     metric := match metric with
               | Some m => m
               | None => mkMetric (column_name, left, right) None
               end |}.

Definition check (self : t) : Exc TestResult :=
  r ← get_result (metric self);
  let dt :=
    if (0 <? number_not_in_range r)%Z
    then ([Lit "The column **"; Lit (column_name self);
           Lit "** has values out of range."], FAIL)
    else ([Lit "All values in the column **"; Lit (column_name self);
           Lit "** are within range"], SUCCESS) in
  mret (mkTestResult name (fst dt) (snd dt)
          {[ ByFeature_id := Some (column_name self) ]}).

End TestValueRange.

Inductive ValueRangeTestClass : Type :=
| TestNumberOfOutRangeValues
| TestShareOfOutRangeValues.

Module BaseDataQualityValueRangeMetricsTest.

Record t : Type := mk {
  cls : ValueRangeTestClass;
  column_name : string;
  left : option Numeric;
  right : option Numeric;
  condition : TestValueCondition;
  metric : DataQualityValueRangeMetrics
}.

Definition init (cls : ValueRangeTestClass) (column_name : string)
    (left right : option Numeric)
    (eq : option EqTarget) (gt gte : option Numeric)
    (is_in : option (list Scalar)) (lt lte : option Numeric)
    (not_eq : option EqTarget) (not_in : option (list Scalar))
    (metric : option DataQualityValueRangeMetrics) : t :=
  {| cls := cls;
     column_name := column_name;
     left := left;
     right := right;
     metric := match metric with
               | Some m => m
               | None => mkMetric (column_name, left, right) None
               end;
     condition := BaseConditionsTest_init eq gt gte is_in lt lte not_eq not_in |}.

Definition groups (self : t) : gmap string (option string) :=
  {[ ByFeature_id := Some (column_name self) ]}.

End BaseDataQualityValueRangeMetricsTest.

Module BaseRange := BaseDataQualityValueRangeMetricsTest.

(** [approx(0)]: no tolerance is given. *)
Definition approx_zero : TestValueCondition :=
  condition_eq (approx (Some 0%Q) None None).

Module TestNumberOfOutRangeValues.

Definition name : string := "Number of Out-of-Range Values ".

Definition get_condition (self : BaseRange.t) : Exc TestValueCondition :=
  if has_condition (BaseRange.condition self) then mret (BaseRange.condition self)
  else mret approx_zero.

Definition calculate_value_for_test (self : BaseRange.t) : Exc (option Numeric) :=
  r ← get_result (BaseRange.metric self);
  mret (Some (inject_Z (number_not_in_range r))).

Definition get_description (self : BaseRange.t) (value : option Numeric)
  : Exc Description :=
  c ← get_condition self;
  mret [Lit "The number of values out of range in the column **";
        Lit (BaseRange.column_name self); Lit "** is "; Plain value; Lit ". ";
        Lit " The test threshold is "; OfCondition c; Lit "."].

End TestNumberOfOutRangeValues.

Module TestShareOfOutRangeValues.

Definition name : string := "Share of Out-of-Range Values".

Definition get_condition (self : BaseRange.t) : Exc TestValueCondition :=
  if has_condition (BaseRange.condition self) then mret (BaseRange.condition self)
  else mret approx_zero.

Definition calculate_value_for_test (self : BaseRange.t) : Exc (option Numeric) :=
  r ← get_result (BaseRange.metric self);
  mret (Some (share_not_in_range r)).

Definition get_description (self : BaseRange.t) (value : option Numeric)
  : Exc Description :=
  r ← get_result (BaseRange.metric self);
  let number_not_in_range := number_not_in_range r in
  let rows_count := range_rows_count r in
  f ← format_spec ".3g" value;
  c ← get_condition self;
  mret [Lit "The share of values out of range in the column **";
        Lit (BaseRange.column_name self); Lit "** is "; f; Lit " ";
        Lit "("; Plain (Some (inject_Z number_not_in_range)); Lit " out of ";
        Plain (Some (inject_Z rows_count)); Lit "). ";
        Lit " The test threshold is "; OfCondition c; Lit "."].

End TestShareOfOutRangeValues.

Global Instance value_range_test : CheckValueTest BaseRange.t := {|
  test_name self :=
    match BaseRange.cls self with
    | TestNumberOfOutRangeValues => TestNumberOfOutRangeValues.name
    | TestShareOfOutRangeValues => TestShareOfOutRangeValues.name
    end;
  condition := BaseRange.condition;
  get_condition self :=
    match BaseRange.cls self with
    | TestNumberOfOutRangeValues => TestNumberOfOutRangeValues.get_condition self
    | TestShareOfOutRangeValues => TestShareOfOutRangeValues.get_condition self
    end;
  calculate_value_for_test self :=
    match BaseRange.cls self with
    | TestNumberOfOutRangeValues =>
        TestNumberOfOutRangeValues.calculate_value_for_test self
    | TestShareOfOutRangeValues =>
        TestShareOfOutRangeValues.calculate_value_for_test self
    end;
  get_description self :=
    match BaseRange.cls self with
    | TestNumberOfOutRangeValues => TestNumberOfOutRangeValues.get_description self
    | TestShareOfOutRangeValues => TestShareOfOutRangeValues.get_description self
    end;
  test_groups := BaseRange.groups
|}.

Module TestNumColumnsOutOfRangeValues.

Definition generate_tests (columns_info : DatasetColumns) : list BaseRange.t :=
  map (fun name =>
         BaseRange.init TestShareOfOutRangeValues name None None
           None None None None None None None None None)
      (num_feature_names columns_info).

End TestNumColumnsOutOfRangeValues.

(** ** Tests on the value-list metric *)

Module TestValueList.

Definition name : string := "Out-of-List Values".

Record t : Type := mk {
  column_name : string;
  values : option (list Scalar);
  metric : DataQualityValueListMetrics
}.

Definition init (column_name : string) (values : option (list Scalar))
    (metric : option DataQualityValueListMetrics) : t :=
  {| column_name := column_name;
     values := values;
     metric := match metric with
               | Some m => m
               | None => mkMetric (column_name, values) None
               end |}.

Definition check (self : t) : Exc TestResult :=
  metric_result ← get_result (metric self);
  let td :=
    if (0 <? number_not_in_list metric_result)%Z
    then (FAIL, [Lit "The column **"; Lit (column_name self);
                 Lit "** has values out of list."])
    else (SUCCESS, [Lit "All values in the column **"; Lit (column_name self);
                    Lit "** are in the list."]) in
  mret (mkTestResult name (snd td) (fst td)
          {[ ByFeature_id := Some (column_name self) ]}).

End TestValueList.

Inductive ValueListTestClass : Type :=
| TestNumberOfOutListValues
| TestShareOfOutListValues.

Module BaseDataQualityValueListMetricsTest.

Record t : Type := mk {
  cls : ValueListTestClass;
  column_name : string;
  values : option (list Scalar);
  condition : TestValueCondition;
  metric : DataQualityValueListMetrics
}.

Definition init (cls : ValueListTestClass) (column_name : string)
    (values : option (list Scalar))
    (eq : option EqTarget) (gt gte : option Numeric)
    (is_in : option (list Scalar)) (lt lte : option Numeric)
    (not_eq : option EqTarget) (not_in : option (list Scalar))
    (metric : option DataQualityValueListMetrics) : t :=
  {| cls := cls;
     column_name := column_name;
     values := values;
     metric := match metric with
               | Some m => m
               | None => mkMetric (column_name, values) None
               end;
     condition := BaseConditionsTest_init eq gt gte is_in lt lte not_eq not_in |}.

Definition groups (self : t) : gmap string (option string) :=
  {[ ByFeature_id := Some (column_name self) ]}.

End BaseDataQualityValueListMetricsTest.

Module BaseList := BaseDataQualityValueListMetricsTest.

Module TestNumberOfOutListValues.

Definition name : string := "Number Out-of-List Values".

Definition get_condition (self : BaseList.t) : Exc TestValueCondition :=
  if has_condition (BaseList.condition self) then mret (BaseList.condition self)
  else mret approx_zero.

Definition calculate_value_for_test (self : BaseList.t) : Exc (option Numeric) :=
  r ← get_result (BaseList.metric self);
  mret (Some (inject_Z (number_not_in_list r))).

Definition get_description (self : BaseList.t) (value : option Numeric)
  : Exc Description :=
  c ← get_condition self;
  mret [Lit "The number of values out of list in the column **";
        Lit (BaseList.column_name self); Lit "** is "; Plain value; Lit ". ";
        Lit "The test threshold is "; OfCondition c; Lit "."].

End TestNumberOfOutListValues.

Module TestShareOfOutListValues.

Definition name : string := "Share of Out-of-List Values".

Definition get_condition (self : BaseList.t) : Exc TestValueCondition :=
  if has_condition (BaseList.condition self) then mret (BaseList.condition self)
  else mret approx_zero.

Definition calculate_value_for_test (self : BaseList.t) : Exc (option Numeric) :=
  r ← get_result (BaseList.metric self);
  mret (Some (share_not_in_list r)).

Definition get_description (self : BaseList.t) (value : option Numeric)
  : Exc Description :=
  r ← get_result (BaseList.metric self);
  let number_not_in_range := number_not_in_list r in
  let rows_count := list_rows_count r in
  f ← format_spec ".3g" value;
  c ← get_condition self;
  mret [Lit "The share of values out of list in the column **";
        Lit (BaseList.column_name self); Lit "** is "; f; Lit " ";
        Lit "("; Plain (Some (inject_Z number_not_in_range)); Lit " out of ";
        Plain (Some (inject_Z rows_count)); Lit "). ";
        Lit "The test threshold is "; OfCondition c; Lit "."].

End TestShareOfOutListValues.

Global Instance value_list_test : CheckValueTest BaseList.t := {|
  test_name self :=
    match BaseList.cls self with
    | TestNumberOfOutListValues => TestNumberOfOutListValues.name
    | TestShareOfOutListValues => TestShareOfOutListValues.name
    end;
  condition := BaseList.condition;
  get_condition self :=
    match BaseList.cls self with
    | TestNumberOfOutListValues => TestNumberOfOutListValues.get_condition self
    | TestShareOfOutListValues => TestShareOfOutListValues.get_condition self
    end;
  calculate_value_for_test self :=
    match BaseList.cls self with
    | TestNumberOfOutListValues =>
        TestNumberOfOutListValues.calculate_value_for_test self
    | TestShareOfOutListValues =>
        TestShareOfOutListValues.calculate_value_for_test self
    end;
  get_description self :=
    match BaseList.cls self with
    | TestNumberOfOutListValues => TestNumberOfOutListValues.get_description self
    | TestShareOfOutListValues => TestShareOfOutListValues.get_description self
    end;
  test_groups := BaseList.groups
|}.

Module TestCatColumnsOutOfListValues.

Definition generate_tests (columns_info : DatasetColumns) : list BaseList.t :=
  map (fun name =>
         BaseList.init TestShareOfOutListValues name None
           None None None None None None None None None)
      (cat_feature_names columns_info).

End TestCatColumnsOutOfListValues.

(** ** The quantile test *)

Module TestValueQuantile.

Definition name : string := "Quantile Value".

(** [column_name] is declared a string, yet the constructor compares it
    with [None]: it is kept optional. *)
Record t : Type := mk {
  column_name : option string;
  quantile : option Numeric;
  condition : TestValueCondition;
  metric : DataQualityValueQuantileMetrics
}.

Definition init (column_name : option string) (quantile : option Numeric)
    (eq : option EqTarget) (gt gte : option Numeric)
    (is_in : option (list Scalar)) (lt lte : option Numeric)
    (not_eq : option EqTarget) (not_in : option (list Scalar))
    (metric : option DataQualityValueQuantileMetrics) : Exc t :=
  m ← match metric with
      | Some m =>
          if is_set column_name || is_set quantile
          then Raise (ValueError "Test parameters and given  metric conflict")
          else Return m
      | None =>
          match quantile with
          | None => Raise (ValueError "Quantile parameter should be present")
          | Some q => Return (mkMetric (column_name, q) None)
          end
      end;
  mret {| column_name := column_name;
          quantile := quantile;
          metric := m;
          condition :=
            BaseConditionsTest_init eq gt gte is_in lt lte not_eq not_in |}.

Definition groups (self : t) : gmap string (option string) :=
  {[ ByFeature_id := column_name self ]}.

Definition get_condition (self : t) : Exc TestValueCondition :=
  if has_condition (condition self) then mret (condition self)
  else
    r ← get_result (metric self);
    match ref_value r with
    | Some ref_value =>
        mret (condition_eq (approx (Some ref_value) (Some (1 # 10)%Q) None))
    | None => Raise no_parameters_no_reference
    end.

Definition calculate_value_for_test (self : t) : Exc (option Numeric) :=
  r ← get_result (metric self);
  mret (Some (value r)).

Definition get_description (self : t) (value : option Numeric)
  : Exc Description :=
  f ← format_spec ".3g" value;
  c ← get_condition self;
  mret ([Lit "The "; Plain (quantile self);
         Lit " quantile value of the column **"; PlainStr (column_name self);
         Lit "** is "; f; Lit ". "] ++ threshold c)%list.

End TestValueQuantile.

Global Instance value_quantile_test : CheckValueTest TestValueQuantile.t := {|
  test_name _ := TestValueQuantile.name;
  condition := TestValueQuantile.condition;
  get_condition := TestValueQuantile.get_condition;
  calculate_value_for_test := TestValueQuantile.calculate_value_for_test;
  get_description := TestValueQuantile.get_description;
  test_groups := TestValueQuantile.groups
|}.

(** ** Every test that resolves a condition *)

Inductive ConditionTest : Type :=
| OnCorrelations (t : BaseCorr.t)
| OnFeature (t : BaseFeature.t)
| OnValueRange (t : BaseRange.t)
| OnValueList (t : BaseList.t)
| OnQuantile (t : TestValueQuantile.t).

Definition lift {A} (corr : BaseCorr.t -> A) (feat : BaseFeature.t -> A)
    (range : BaseRange.t -> A) (lst : BaseList.t -> A)
    (quant : TestValueQuantile.t -> A) (t : ConditionTest) : A :=
  match t with
  | OnCorrelations t => corr t
  | OnFeature t => feat t
  | OnValueRange t => range t
  | OnValueList t => lst t
  | OnQuantile t => quant t
  end.

Global Instance condition_test : CheckValueTest ConditionTest := {|
  test_name := lift test_name test_name test_name test_name test_name;
  condition := lift condition condition condition condition condition;
  get_condition :=
    lift get_condition get_condition get_condition get_condition get_condition;
  calculate_value_for_test :=
    lift calculate_value_for_test calculate_value_for_test
         calculate_value_for_test calculate_value_for_test
         calculate_value_for_test;
  get_description :=
    lift get_description get_description get_description get_description
         get_description;
  test_groups := lift test_groups test_groups test_groups test_groups test_groups
|}.

(** [check()] as each class inherits or overrides it. *)
Definition check (t : ConditionTest) : Exc (TestResult * option Numeric) :=
  match t with
  | OnFeature t => BaseFeatureDataQualityMetricsTest_check t
  | OnCorrelations t => BaseCheckValueTest_check t
  | OnValueRange t => BaseCheckValueTest_check t
  | OnValueList t => BaseCheckValueTest_check t
  | OnQuantile t => BaseCheckValueTest_check t
  end.


(** ** Statistics of reference data, as the specification speaks of them *)

Global Instance Exc_fmap : FMap Exc := fun A B f m =>
  match m with
  | Return a => Return (f a)
  | Raise e => Raise e
  end.

(** The status a check ends with. *)
Definition status_of (m : Exc (TestResult * option Numeric)) : Exc Status :=
  (fun rv => status (fst rv)) <$> m.

(** The statistic a correlation check compares, read from one side of
    the result. *)
Definition correlation_statistic (cls : CorrelationsTestClass)
    (side : DataCorrelation) : option Numeric :=
  match cls with
  | TestTargetPredictionCorrelation => target_prediction_correlation side
  | TestHighlyCorrelatedFeatures => abs_max_num_features_correlation side
  | TestTargetFeaturesCorrelations => abs_max_target_features_correlation side
  | TestPredictionFeaturesCorrelations =>
      abs_max_prediction_features_correlation side
  | TestCorrelationChanges _ => None
  end.

(** The statistic a per-feature check compares, read from the
    statistics of one column. *)
Definition feature_statistic (cls : FeatureTestClass)
    (fs : FeatureQualityStats) : option Numeric :=
  match cls with
  | TestFeatureValueMin => numeric_of (stats_min fs)
  | TestFeatureValueMax => numeric_of (stats_max fs)
  | TestFeatureValueMean => mean fs
  | TestFeatureValueMedian => percentile_50 fs
  | TestFeatureValueStd => std fs
  | TestNumberOfUniqueValues => inject_Z <$> unique_count fs
  | TestUniqueValuesShare => percent <$> unique_percentage fs
  | TestMostCommonValueShare => percent <$> most_common_value_percentage fs
  end.

(** The reference value of the checked statistic that the metric result
    of a test carries, if it carries one.  The range and list metrics
    and the count of correlation changes have no reference counterpart. *)
Definition reference_statistic (t : ConditionTest) : option Numeric :=
  match t with
  | OnCorrelations t =>
      r ← result (BaseCorr.metric t);
      side ← reference r;
      correlation_statistic (BaseCorr.cls t) side
  | OnFeature t =>
      r ← result (BaseFeature.metric t);
      stats ← reference_features_stats r;
      fs ← get_all_features stats !! BaseFeature.column_name t;
      feature_statistic (BaseFeature.cls t) fs
  | OnValueRange _ => None
  | OnValueList _ => None
  | OnQuantile t =>
      r ← result (TestValueQuantile.metric t);
      ref_value r
  end.

(** The two per-feature checks that look at the reference statistic
    before they use it. *)
Definition guards_reference_statistic (cls : FeatureTestClass) : bool :=
  match cls with
  | TestUniqueValuesShare | TestMostCommonValueShare => true
  | _ => false
  end.

(** The metric result is computed and gives the check no reference to
    use: the reference part is absent, or it is present and the check
    finds the statistic undefined where it looks at it first (the
    correlation checks and the two share checks do).  The range and
    list checks never consult a reference. *)
Definition lacks_reference (t : ConditionTest) : Prop :=
  match t with
  | OnCorrelations t =>
      exists r, result (BaseCorr.metric t) = Some r
                /\ reference r ≫= correlation_statistic (BaseCorr.cls t) = None
  | OnFeature t =>
      exists r, result (BaseFeature.metric t) = Some r
                /\ (reference_features_stats r = None
                    \/ (guards_reference_statistic (BaseFeature.cls t) = true
                        /\ exists stats fs,
                             reference_features_stats r = Some stats
                             /\ get_all_features stats
                                  !! BaseFeature.column_name t = Some fs
                             /\ feature_statistic (BaseFeature.cls t) fs
                                = None))
  | OnValueRange _ => True
  | OnValueList _ => True
  | OnQuantile t =>
      exists r, result (TestValueQuantile.metric t) = Some r
                /\ ref_value r = None
  end.

(** The fixed default of each check, where it has one. *)
Definition fixed_default (t : ConditionTest) : option TestValueCondition :=
  match t with
  | OnCorrelations t =>
      match BaseCorr.cls t with
      | TestTargetPredictionCorrelation => Some (condition_gt 0%Q)
      | TestHighlyCorrelatedFeatures => Some (condition_lt (9 # 10)%Q)
      | TestTargetFeaturesCorrelations => Some (condition_lt (9 # 10)%Q)
      | TestPredictionFeaturesCorrelations => Some (condition_lt (9 # 10)%Q)
      | TestCorrelationChanges _ =>
          Some (mkCondition (Some (Exact 0%Q)) None None None None None None None)
      end
  | OnFeature t =>
      match BaseFeature.cls t with
      | TestNumberOfUniqueValues => Some (condition_gt 1%Q)
      | TestMostCommonValueShare => Some (condition_lt (8 # 10)%Q)
      | _ => None
      end
  | OnValueRange _ => Some approx_zero
  | OnValueList _ => Some approx_zero
  | OnQuantile _ => None
  end.

(** The tolerance each check declares for its reference-derived
    condition: relative first, absolute second. *)
Definition declared_tolerance (t : ConditionTest)
  : option Numeric * option Numeric :=
  match t with
  | OnCorrelations t =>
      match BaseCorr.cls t with
      | TestTargetPredictionCorrelation => (None, Some (25 # 100)%Q)
      | _ => (Some (1 # 10)%Q, None)
      end
  | _ => (Some (1 # 10)%Q, None)
  end.

(** The same test looking at a result whose current part is replaced. *)
Definition with_current (t : ConditionTest) (cur : DataCorrelation)
    (stats : DataQualityStats) (v : Numeric) : ConditionTest :=
  match t with
  | OnCorrelations t =>
      OnCorrelations
        (BaseCorr.mk (BaseCorr.cls t) (BaseCorr.method t) (BaseCorr.condition t)
           (mkMetric (parameters (BaseCorr.metric t))
              ((fun r => mkCorrelationResults cur (reference r))
                 <$> result (BaseCorr.metric t))))
  | OnFeature t =>
      OnFeature
        (BaseFeature.mk (BaseFeature.cls t) (BaseFeature.column_name t)
           (BaseFeature.condition t)
           (mkMetric (parameters (BaseFeature.metric t))
              ((fun r => mkDataQualityMetricsResults stats
                           (reference_features_stats r) (counts_of_values r))
                 <$> result (BaseFeature.metric t))))
  | OnQuantile t =>
      OnQuantile
        (TestValueQuantile.mk (TestValueQuantile.column_name t)
           (TestValueQuantile.quantile t) (TestValueQuantile.condition t)
           (mkMetric (parameters (TestValueQuantile.metric t))
              ((fun r => mkQuantileResults v (ref_value r))
                 <$> result (TestValueQuantile.metric t))))
  | other => other
  end.

(** ** Sample data *)

Definition no_condition : TestValueCondition := empty_condition.

Definition numeric_stats (lo hi m sd : Numeric) : FeatureQualityStats :=
  mkFeatureQualityStats (Some (Num lo)) (Some (Num hi)) (Some m) (Some m)
    (Some sd) (Some 5%Z) (Some 50%Q) (Some 40%Q).

(** Current data with a column [score] of mean [m], reference data with
    the same column of mean 10 and standard deviation 2. *)
Definition sample_result (m : Numeric) : DataQualityMetricsResults :=
  mkDataQualityMetricsResults
    (mkDataQualityStats {[ "score" := numeric_stats 1 20 m 3 ]})
    (Some (mkDataQualityStats {[ "score" := numeric_stats 1 20 10 2 ]}))
    ∅.

(** The same current data without reference data. *)
Definition sample_result_no_reference : DataQualityMetricsResults :=
  mkDataQualityMetricsResults
    (mkDataQualityStats {[ "score" := numeric_stats 1 20 13 3 ]}) None ∅.

Definition computed (r : DataQualityMetricsResults) : DataQualityMetrics :=
  mkMetric tt (Some r).

Definition region_test : BaseFeature.t :=
  BaseFeature.init TestFeatureValueMin "region"
    None None None None None None None None
    (Some (computed (sample_result 13))).

Definition mean_test (m : Numeric) : TestMeanInNSigmas.t :=
  TestMeanInNSigmas.init "score" 2 (Some (computed (sample_result m))).

Definition missing_reference_test : TestMeanInNSigmas.t :=
  TestMeanInNSigmas.init "score" 2 (Some (computed sample_result_no_reference)).

(** A column of labels: none of the numeric statistics is defined. *)
Definition label_stats : FeatureQualityStats :=
  mkFeatureQualityStats None None None None None (Some 3%Z) (Some 30%Q) (Some 60%Q).

Definition label_result : DataQualityMetricsResults :=
  mkDataQualityMetricsResults
    (mkDataQualityStats {[ "label" := label_stats ]}) None ∅.

Definition label_min_test : BaseFeature.t :=
  BaseFeature.init TestFeatureValueMin "label"
    None (Some 0%Q) None None None None None None
    (Some (computed label_result)).

Definition score_test (cls : FeatureTestClass)
    (r : DataQualityMetricsResults) : BaseFeature.t :=
  BaseFeature.init cls "score" None None None None None None None None
    (Some (computed r)).

Definition sample_correlation (c : Numeric) : DataCorrelation :=
  mkDataCorrelation (Some c) (Some c) (Some c) (Some c) [[1%Q; c]; [c; 1%Q]].

Definition correlations_test_on (cls : CorrelationsTestClass)
    (reference : option DataCorrelation) : BaseCorr.t :=
  BaseCorr.init cls "pearson" None None None None None None None None
    (Some (mkMetric "pearson"
             (Some (mkCorrelationResults (sample_correlation (1 # 2))
                      reference)))).

Definition absent_column_test : TestMeanInNSigmas.t :=
  TestMeanInNSigmas.init "region" 2 (Some (computed (sample_result 13))).

(** A stability result for data without target and prediction. *)
Definition no_target_no_prediction : DataQualityStabilityMetrics :=
  mkMetric tt (Some {| number_not_stable_target := None;
                       number_not_stable_prediction := None |}).

(** ** Notions used in the statements *)

(** The groups of a test bound to one column. *)
Definition by_feature (column_name : string) : gmap string (option string) :=
  {[ ByFeature_id := Some column_name ]}.

(** A configuration error is a [ValueError]. *)
Definition configuration_error {A} (m : Exc A) : Prop :=
  exists msg, m = Raise (ValueError msg).

(** The same test class with another [groups] method. *)
Definition with_groups {T} (I : CheckValueTest T)
    (g : T -> gmap string (option string)) : CheckValueTest T :=
  {| test_name := @test_name T I;
     condition := @condition T I;
     get_condition := @get_condition T I;
     calculate_value_for_test := @calculate_value_for_test T I;
     get_description := @get_description T I;
     test_groups := g |}.

(** The condition a check derives from a defined reference value [v]:
    the minimum and maximum checks bound the value from one side, every
    other check asks for approximate equality with [v]. *)
Definition derived_condition (t : ConditionTest) (v : Numeric)
  : TestValueCondition :=
  let approximately :=
    condition_eq (approx (Some v) (fst (declared_tolerance t))
                         (snd (declared_tolerance t))) in
  match t with
  | OnFeature f =>
      match BaseFeature.cls f with
      | TestFeatureValueMin =>
          mkCondition None None (Some v) None None None None None
      | TestFeatureValueMax =>
          mkCondition None None None None None (Some v) None None
      | _ => approximately
      end
  | _ => approximately
  end.

Definition is_min_or_max (t : ConditionTest) : bool :=
  match t with
  | OnFeature f =>
      match BaseFeature.cls f with
      | TestFeatureValueMin | TestFeatureValueMax => true
      | _ => false
      end
  | _ => false
  end.

Create HintDb conditions.

#[global] Hint Unfold
  TestTargetPredictionCorrelation.get_condition
  TestHighlyCorrelatedFeatures.get_condition
  TestTargetFeaturesCorrelations.get_condition
  TestPredictionFeaturesCorrelations.get_condition
  TestCorrelationChanges.get_condition
  TestFeatureValueMin.get_condition
  TestFeatureValueMax.get_condition
  TestFeatureValueMean.get_condition
  TestFeatureValueMedian.get_condition
  TestFeatureValueStd.get_condition
  TestNumberOfUniqueValues.get_condition
  TestUniqueValuesShare.get_condition
  TestMostCommonValueShare.get_condition
  TestNumberOfOutRangeValues.get_condition
  TestShareOfOutRangeValues.get_condition
  TestNumberOfOutListValues.get_condition
  TestShareOfOutListValues.get_condition
  TestValueQuantile.get_condition : conditions.

(** ** Rendering the mean-stability test *)

(** A value stored among the parameters of a rendered test. *)
Inductive JsonValue : Type :=
| JStr (s : string)
| JInt (n : Z)
| JNum (v : option Numeric).

Module TestMeanInNSigmasRenderer.

(** [render_json], as far as it fills the parameters: [parameters] is
    the mapping that the inherited method returns under that key. *)
Definition render_json (parameters : gmap string JsonValue)
    (obj : TestMeanInNSigmas.t) : Exc (gmap string JsonValue) :=
  metric_result ← get_result (TestMeanInNSigmas.metric obj);
  let parameters :=
    <["column_name" := JStr (TestMeanInNSigmas.column_name obj)]> parameters in
  let parameters :=
    <["n_sigmas" := JInt (TestMeanInNSigmas.n_sigmas obj)]> parameters in
  cur ← stats_getitem (features_stats metric_result)
                      (TestMeanInNSigmas.column_name obj);
  let parameters := <["current_mean" := JNum (mean cur)]> parameters in
  match reference_features_stats metric_result with
  | Some reference =>
      ref ← stats_getitem reference (TestMeanInNSigmas.column_name obj);
      let parameters := <["reference_mean" := JNum (mean ref)]> parameters in
      mret (<["reference_std" := JNum (std ref)]> parameters)
  | None => mret parameters
  end.

(** The condition that [render_html] builds before it draws: the range
    around the reference mean. *)
Definition ref_condition (obj : TestMeanInNSigmas.t) : Exc TestValueCondition :=
  metric_result ← get_result (TestMeanInNSigmas.metric obj);
  ms ← match reference_features_stats metric_result with
       | Some reference =>
           ref ← stats_getitem reference (TestMeanInNSigmas.column_name obj);
           mret (mean ref, std ref)
       | None => mret (None, None)
       end;
  match fst ms, snd ms with
  | Some ref_mean, Some ref_std =>
      let gt := (ref_mean - inject_Z (TestMeanInNSigmas.n_sigmas obj) * ref_std)%Q in
      let lt := (ref_mean + inject_Z (TestMeanInNSigmas.n_sigmas obj) * ref_std)%Q in
      mret (mkCondition None (Some gt) None None (Some lt) None None None)
  | _, _ => Raise (ValueError "No mean or std for reference")
  end.

End TestMeanInNSigmasRenderer.

(** The same mean-stability test with another number of sigmas. *)
Definition with_n_sigmas (self : TestMeanInNSigmas.t) (n : Z)
  : TestMeanInNSigmas.t :=
  TestMeanInNSigmas.mk (TestMeanInNSigmas.column_name self) n
    (TestMeanInNSigmas.metric self).

(** A column whose reference values are all equal: the standard
    deviation is zero. *)
Definition constant_reference_result (m : Numeric) : DataQualityMetricsResults :=
  mkDataQualityMetricsResults
    (mkDataQualityStats {[ "score" := numeric_stats 1 20 m 3 ]})
    (Some (mkDataQualityStats {[ "score" := numeric_stats 10 10 10 0 ]}))
    ∅.

(** Current data with the label column, reference data with the score
    column: each dataset lacks the column of the other. *)
Definition label_and_reference : DataQualityMetricsResults :=
  mkDataQualityMetricsResults
    (mkDataQualityStats {[ "label" := label_stats ]})
    (Some (mkDataQualityStats {[ "score" := numeric_stats 1 20 10 2 ]}))
    ∅.

(** Both datasets have the label column, without numeric statistics. *)
Definition label_in_both : DataQualityMetricsResults :=
  mkDataQualityMetricsResults
    (mkDataQualityStats {[ "label" := label_stats ]})
    (Some (mkDataQualityStats {[ "label" := label_stats ]}))
    ∅.

(** ** More sample data and notions for the statements *)

(** The same test looking at a result whose reference part is replaced. *)
Definition with_reference (t : ConditionTest) (ref : option DataCorrelation)
    (stats : option DataQualityStats) (v : option Numeric) : ConditionTest :=
  match t with
  | OnCorrelations t =>
      OnCorrelations
        (BaseCorr.mk (BaseCorr.cls t) (BaseCorr.method t) (BaseCorr.condition t)
           (mkMetric (parameters (BaseCorr.metric t))
              ((fun r => mkCorrelationResults (current r) ref)
                 <$> result (BaseCorr.metric t))))
  | OnFeature t =>
      OnFeature
        (BaseFeature.mk (BaseFeature.cls t) (BaseFeature.column_name t)
           (BaseFeature.condition t)
           (mkMetric (parameters (BaseFeature.metric t))
              ((fun r => mkDataQualityMetricsResults (features_stats r) stats
                           (counts_of_values r))
                 <$> result (BaseFeature.metric t))))
  | OnQuantile t =>
      OnQuantile
        (TestValueQuantile.mk (TestValueQuantile.column_name t)
           (TestValueQuantile.quantile t) (TestValueQuantile.condition t)
           (mkMetric (parameters (TestValueQuantile.metric t))
              ((fun r => mkQuantileResults (value r) v)
                 <$> result (TestValueQuantile.metric t))))
  | other => other
  end.

Definition is_correlation_changes (t : ConditionTest) : bool :=
  match t with
  | OnCorrelations c =>
      match BaseCorr.cls c with
      | TestCorrelationChanges _ => true
      | _ => false
      end
  | _ => false
  end.

(** A column of names: minimum and maximum are strings. *)
Definition name_stats : FeatureQualityStats :=
  mkFeatureQualityStats (Some (Str "ann")) (Some (Str "zoe")) None None None
    (Some 7%Z) (Some 70%Q) (Some 20%Q).

Definition name_result : DataQualityMetricsResults :=
  mkDataQualityMetricsResults
    (mkDataQualityStats {[ "name" := name_stats ]})
    (Some (mkDataQualityStats {[ "name" := name_stats ]}))
    ∅.

Definition feature_test_on (cls : FeatureTestClass) (column : string)
    (r : DataQualityMetricsResults) : BaseFeature.t :=
  BaseFeature.init cls column None None None None None None None None
    (Some (computed r)).

Create HintDb descriptions.

#[global] Hint Unfold
  TestTargetPredictionCorrelation.get_description
  TestHighlyCorrelatedFeatures.get_description
  TestTargetFeaturesCorrelations.get_description
  TestPredictionFeaturesCorrelations.get_description
  TestCorrelationChanges.get_description
  TestFeatureValueMin.get_description
  TestFeatureValueMax.get_description
  TestFeatureValueMean.get_description
  TestFeatureValueMedian.get_description
  TestFeatureValueStd.get_description
  TestNumberOfUniqueValues.get_description
  TestUniqueValuesShare.get_description
  TestMostCommonValueShare.get_description
  TestNumberOfOutRangeValues.get_description
  TestShareOfOutRangeValues.get_description
  TestNumberOfOutListValues.get_description
  TestShareOfOutListValues.get_description
  TestValueQuantile.get_description : descriptions.

Create HintDb values.

#[global] Hint Unfold
  TestTargetPredictionCorrelation.calculate_value_for_test
  TestHighlyCorrelatedFeatures.calculate_value_for_test
  TestTargetFeaturesCorrelations.calculate_value_for_test
  TestPredictionFeaturesCorrelations.calculate_value_for_test
  TestCorrelationChanges.calculate_value_for_test
  TestFeatureValueMin.calculate_value_for_test
  TestFeatureValueMax.calculate_value_for_test
  TestFeatureValueMean.calculate_value_for_test
  TestFeatureValueMedian.calculate_value_for_test
  TestFeatureValueStd.calculate_value_for_test
  TestNumberOfUniqueValues.calculate_value_for_test
  TestUniqueValuesShare.calculate_value_for_test
  TestMostCommonValueShare.calculate_value_for_test
  TestNumberOfOutRangeValues.calculate_value_for_test
  TestShareOfOutRangeValues.calculate_value_for_test
  TestNumberOfOutListValues.calculate_value_for_test
  TestShareOfOutListValues.calculate_value_for_test
  TestValueQuantile.calculate_value_for_test : values.

(** The checks whose description formats the value with a format
    specification before anything else. *)
Definition formats_value_first (t : ConditionTest) : bool :=
  match t with
  | OnCorrelations c =>
      match BaseCorr.cls c with
      | TestHighlyCorrelatedFeatures | TestCorrelationChanges _ => true
      | _ => false
      end
  | OnFeature f =>
      match BaseFeature.cls f with
      | TestFeatureValueMean | TestFeatureValueMedian | TestFeatureValueStd
      | TestUniqueValuesShare => true
      | _ => false
      end
  | OnQuantile _ => true
  | _ => false
  end.

(** The message of the checks that describe an absent value in words. *)
Definition absent_value_message (t : ConditionTest) : option Description :=
  match t with
  | OnCorrelations c =>
      match BaseCorr.cls c with
      | TestTargetPredictionCorrelation =>
          Some [Lit "No target or prediction in the dataset."]
      | TestTargetFeaturesCorrelations =>
          Some [Lit "No target in the current dataset"]
      | TestPredictionFeaturesCorrelations =>
          Some [Lit "No prediction in the current dataset"]
      | _ => None
      end
  | _ => None
  end.

(** ** Rendering the value-range tests *)

(** [bool(x)] for an optional number: [None] and zero are false. *)
Definition truthy (x : option Numeric) : bool :=
  match x with
  | Some q => negb (Qeq_bool q 0)
  | None => false
  end.

Definition condition_between (gt lt : option Numeric) : TestValueCondition :=
  mkCondition None gt None None lt None None None.

Section RangeRenderers.

(** The attributes [ref_min] and [ref_max] of the result of the
    value-range metric, which is declared outside the sources. *)
Variable ref_min ref_max : DataQualityValueRangeMetricsResults -> option Numeric.

(** The condition that [TestValueRangeRenderer.render_html] draws. *)
Definition TestValueRangeRenderer_condition (obj : TestValueRange.t)
  : Exc TestValueCondition :=
  if is_set (TestValueRange.left obj) && is_set (TestValueRange.right obj)
  then mret (condition_between (TestValueRange.left obj)
                               (TestValueRange.right obj))
  else
    r ← get_result (TestValueRange.metric obj);
    mret (condition_between (ref_min r) (ref_max r)).

(** The condition that [TestNumberOfOutRangeValuesRenderer.render_html]
    draws. *)
Definition TestNumberOfOutRangeValuesRenderer_condition (obj : BaseRange.t)
  : Exc TestValueCondition :=
  if is_set (BaseRange.left obj) && is_set (BaseRange.right obj)
  then mret (condition_between (BaseRange.left obj) (BaseRange.right obj))
  else
    r ← get_result (BaseRange.metric obj);
    mret (condition_between (ref_min r) (ref_max r)).

(** The condition that [TestShareOfOutRangeValuesRenderer.render_html]
    draws: the bounds are tested for truth, not compared with [None]. *)
Definition TestShareOfOutRangeValuesRenderer_condition (obj : BaseRange.t)
  : Exc TestValueCondition :=
  if truthy (BaseRange.left obj) && truthy (BaseRange.right obj)
  then mret (condition_between (BaseRange.left obj) (BaseRange.right obj))
  else
    r ← get_result (BaseRange.metric obj);
    mret (condition_between (ref_min r) (ref_max r)).

End RangeRenderers.

(** ** Regression performance: the error bias of both datasets *)

Module RegressionPerformanceMetrics.

Section ErrorBias.

(** The statistics kept per feature; their computation is outside the
    sources. *)
Variable V : Type.

(** One turn of the loop over the reference error bias: the entry of a
    feature that is already there is updated, the reference statistics
    overriding equal keys; a new feature gets the reference entry. *)
Definition merge_feature (feature_name : string) (current_bias : gmap string V)
    (error_bias : gmap string (gmap string V)) : gmap string (gmap string V) :=
  match error_bias !! feature_name with
  | Some own => <[feature_name := current_bias ∪ own]> error_bias
  | None => <[feature_name := current_bias]> error_bias
  end.

(** The error bias that [calculate] returns: [reference] is [None]
    without reference data, and otherwise the error bias of the
    reference metrics, which may be [None] or empty. *)
Definition merged_error_bias (error_bias : gmap string (gmap string V))
    (reference : option (option (gmap string (gmap string V))))
  : gmap string (gmap string V) :=
  match reference with
  | Some (Some reference_bias) =>
      if bool_decide (reference_bias = ∅) then error_bias
      else map_fold merge_feature error_bias reference_bias
  | _ => error_bias
  end.

End ErrorBias.

End RegressionPerformanceMetrics.

Module RegressionPerformanceMetricsRenderer.

Section RenderJson.

Variable J : Type.

(** [d.pop(key)], for the dictionary that is left. *)
Definition pop (key : string) (d : gmap string J) : Exc (gmap string J) :=
  match d !! key with
  | Some _ => Return (delete key d)
  | None => Raise (KeyError key)
  end.

(** [render_json]; [fields] is the dictionary that [dataclasses.asdict]
    makes of the result. *)
Definition render_json (fields : gmap string J) : Exc (gmap string J) :=
  d ← pop "hist_for_plot" fields;
  d ← pop "vals_for_plots" d;
  pop "me_hist_for_plot" d.

End RenderJson.

End RegressionPerformanceMetricsRenderer.

(** The entry of one feature after the loop over the reference. *)
Definition merged_entry {V : Type} (own reference : option (gmap string V))
  : option (gmap string V) :=
  match reference with
  | Some b =>
      Some (match own with
            | Some c => b ∪ c
            | None => b
            end)
  | None => own
  end.

(** A matrix of correlations between two columns. *)
Definition two_by_two (c : Numeric) : list (list Numeric) :=
  [[1%Q; c]; [c; 1%Q]].

Definition changes_test (d : Numeric) (cur ref : list (list Numeric))
  : BaseCorr.t :=
  BaseCorr.init (TestCorrelationChanges d) "pearson"
    None None None None None None None None
    (Some (mkMetric "pearson"
             (Some (mkCorrelationResults
                      (mkDataCorrelation None None None None cur)
                      (Some (mkDataCorrelation None None None None ref)))))).

(** Reference and current data with a column [blank] for which no
    statistic at all is defined. *)
Definition blank_stats : FeatureQualityStats :=
  mkFeatureQualityStats None None None None None None None None.

Definition blank_in_both : DataQualityMetricsResults :=
  mkDataQualityMetricsResults
    (mkDataQualityStats {[ "blank" := blank_stats ]})
    (Some (mkDataQualityStats {[ "blank" := blank_stats ]}))
    ∅.

(** * Properties *)

(** ** Comparisons on rationals *)

Lemma Qltb_lt (x y : Q) : Qltb x y = true <-> (x < y)%Q.
Proof.
  unfold Qltb. rewrite negb_true_iff, <- not_true_iff_false, Qle_bool_iff.
  split; [apply Qnot_le_lt | apply Qlt_not_le].
Qed.

Lemma Qltb_irrefl (x y : Q) : (x == y)%Q -> Qltb x y = false.
Proof.
  intros E. apply not_true_iff_false. rewrite Qltb_lt, E.
  apply Qlt_irrefl.
Qed.

Lemma Qltb_irrefl_sym (x y : Q) : (x == y)%Q -> Qltb y x = false.
Proof. intros E. apply Qltb_irrefl. symmetry. exact E. Qed.

(** ** Reading a computed result *)

Lemma get_result_computed {P R} (m : Metric P R) (r : R) :
  result m = Some r -> get_result m = Return r.
Proof. unfold get_result. intros ->. reflexivity. Qed.

Lemma getitem_lookup {A} (key : string) (d : gmap string A) (a : A) :
  d !! key = Some a -> getitem d key = Return a.
Proof. unfold getitem. intros ->. reflexivity. Qed.

(** ** C2: an explicit condition is used as it is *)

(** C2.  For every test that resolves a condition, when the condition
    stored at construction has some field set, [get_condition] returns
    that very condition: the metric result is not consulted, so neither
    reference data nor a fixed default comes into play. *)
Theorem explicit_condition_verbatim (t : ConditionTest) :
  has_condition (condition t) = true ->
  get_condition t = Return (condition t).
Proof.
  destruct t as [t|t|t|t|t]; cbn; intros H.
  - destruct (BaseCorr.cls t);
      [ unfold TestTargetPredictionCorrelation.get_condition
      | unfold TestHighlyCorrelatedFeatures.get_condition
      | unfold TestTargetFeaturesCorrelations.get_condition
      | unfold TestPredictionFeaturesCorrelations.get_condition
      | unfold TestCorrelationChanges.get_condition ];
      rewrite H; reflexivity.
  - destruct (BaseFeature.cls t);
      [ unfold TestFeatureValueMin.get_condition
      | unfold TestFeatureValueMax.get_condition
      | unfold TestFeatureValueMean.get_condition
      | unfold TestFeatureValueMedian.get_condition
      | unfold TestFeatureValueStd.get_condition
      | unfold TestNumberOfUniqueValues.get_condition
      | unfold TestUniqueValuesShare.get_condition
      | unfold TestMostCommonValueShare.get_condition ];
      rewrite H; reflexivity.
  - destruct (BaseRange.cls t);
      [ unfold TestNumberOfOutRangeValues.get_condition
      | unfold TestShareOfOutRangeValues.get_condition ];
      rewrite H; reflexivity.
  - destruct (BaseList.cls t);
      [ unfold TestNumberOfOutListValues.get_condition
      | unfold TestShareOfOutListValues.get_condition ];
      rewrite H; reflexivity.
  - unfold TestValueQuantile.get_condition. rewrite H. reflexivity.
Qed.

(** A minimum check with [gt=0] on a metric that was never computed. *)
Lemma explicit_condition_verbatim_witness :
  get_condition
    (OnFeature (BaseFeature.init TestFeatureValueMin "score"
                  None (Some 0%Q) None None None None None None None))
  = Return (condition_gt 0%Q).
Proof.
  apply (explicit_condition_verbatim
           (OnFeature (BaseFeature.init TestFeatureValueMin "score"
                         None (Some 0%Q) None None None None None None None))).
  reflexivity.
Defined.

(** ** C1: a per-feature test on a column without statistics *)

Lemma check_absent_feature (self : BaseFeature.t) (r : DataQualityMetricsResults) :
  result (BaseFeature.metric self) = Some r ->
  not_in (BaseFeature.column_name self) (get_all_features (features_stats r))
    = true ->
  BaseFeatureDataQualityMetricsTest_check self
  = Return (mark_as_fail
              (mkTestResult (test_name self) [Lit "The test was not launched"]
                            SKIPPED ∅)
              (Some (feature_not_found (BaseFeature.column_name self))),
            None).
Proof.
  intros Hr Hcol. unfold BaseFeatureDataQualityMetricsTest_check.
  rewrite (get_result_computed _ _ Hr). cbn. rewrite Hcol. reflexivity.
Qed.

(** C1, as the code has it.  For every test derived from
    [BaseFeatureDataQualityMetricsTest] whose column is not among the
    feature statistics of the computed metric result, [check] returns,
    without raising, the result marked as failed: the status is FAIL,
    the description says that the feature was not found, and no group
    is recorded.  The status is neither SKIPPED nor ERROR. *)
Theorem absent_feature_is_marked_as_fail
    (self : BaseFeature.t) (r : DataQualityMetricsResults) :
  result (BaseFeature.metric self) = Some r ->
  not_in (BaseFeature.column_name self) (get_all_features (features_stats r))
    = true ->
  check (OnFeature self)
  = Return (mkTestResult (test_name self)
              (feature_not_found (BaseFeature.column_name self)) FAIL ∅,
            None).
Proof.
  intros Hr Hcol. unfold check.
  rewrite (check_absent_feature self r Hr Hcol). reflexivity.
Qed.

Lemma absent_feature_is_marked_as_fail_witness :
  check (OnFeature region_test)
  = Return (mkTestResult "Min Value" (feature_not_found "region") FAIL ∅, None).
Proof.
  apply (absent_feature_is_marked_as_fail region_test (sample_result 13));
    reflexivity.
Defined.

(** C1 as the specification states it fails: the column [region] has no
    statistics in the sample result, and the check of a minimum test
    bound to it does not end with the status SKIPPED. *)
Lemma absent_feature_is_not_skipped :
  not_in "region" (get_all_features (features_stats (sample_result 13))) = true
  /\ ~ (exists res, check (OnFeature region_test) = Return res
                    /\ status (fst res) = SKIPPED).
Proof.
  split; [reflexivity |].
  intros [res [Hres Hst]]. unfold check in Hres.
  rewrite (check_absent_feature region_test (sample_result 13)) in Hres
    by reflexivity.
  injection Hres as <-. discriminate Hst.
Qed.

(** ** C3 and C10: the mean within n sigmas *)

(** The check on a column that both datasets have, with its mean and
    the reference mean and standard deviation defined. *)
Lemma mean_check_present (self : TestMeanInNSigmas.t)
    (r : DataQualityMetricsResults) (ref : DataQualityStats)
    (cur_fs ref_fs : FeatureQualityStats) (cm rm rs : Numeric) :
  result (TestMeanInNSigmas.metric self) = Some r ->
  reference_features_stats r = Some ref ->
  get_all_features (features_stats r) !! TestMeanInNSigmas.column_name self
    = Some cur_fs ->
  get_all_features ref !! TestMeanInNSigmas.column_name self = Some ref_fs ->
  mean cur_fs = Some cm -> mean ref_fs = Some rm -> std ref_fs = Some rs ->
  let lo := (rm - rs * inject_Z (TestMeanInNSigmas.n_sigmas self))%Q in
  let hi := (rm + rs * inject_Z (TestMeanInNSigmas.n_sigmas self))%Q in
  TestMeanInNSigmas.check self
  = Return (mkTestResult TestMeanInNSigmas.name
              (TestMeanInNSigmas.expected_range self (Fmt ".3g" cm) lo hi)
              (if Qltb lo cm && Qltb cm hi then SUCCESS else FAIL)
              (by_feature (TestMeanInNSigmas.column_name self))).
Proof.
  intros Hr Href Hcur Hreff Hcm Hrm Hrs lo hi.
  unfold TestMeanInNSigmas.check.
  rewrite (get_result_computed _ _ Hr). cbn. rewrite Href.
  unfold not_in, stats_getitem, getitem. rewrite Hcur, Hreff. cbn.
  rewrite Hcm, Hrm, Hrs. cbn. fold lo hi.
  destruct (Qltb lo cm && Qltb cm hi); reflexivity.
Qed.

(** C3.  With [n_sigmas = 2], a column present in both datasets, a
    reference mean equal to 10 and a reference standard deviation equal
    to 2, the check reports the range from 6 to 14; it ends with SUCCESS
    when the current mean equals 13 and with FAIL when it equals 15. *)
Theorem mean_in_two_sigmas (self : TestMeanInNSigmas.t)
    (r : DataQualityMetricsResults) (ref : DataQualityStats)
    (cur_fs ref_fs : FeatureQualityStats) (cm rm rs : Numeric) :
  TestMeanInNSigmas.n_sigmas self = 2%Z ->
  result (TestMeanInNSigmas.metric self) = Some r ->
  reference_features_stats r = Some ref ->
  get_all_features (features_stats r) !! TestMeanInNSigmas.column_name self
    = Some cur_fs ->
  get_all_features ref !! TestMeanInNSigmas.column_name self = Some ref_fs ->
  mean cur_fs = Some cm -> mean ref_fs = Some rm -> std ref_fs = Some rs ->
  (rm == 10)%Q -> (rs == 2)%Q ->
  exists lo hi : Numeric,
    (lo == 6)%Q /\ (hi == 14)%Q /\
    ((cm == 13)%Q ->
     TestMeanInNSigmas.check self
     = Return (mkTestResult TestMeanInNSigmas.name
                 (TestMeanInNSigmas.expected_range self (Fmt ".3g" cm) lo hi)
                 SUCCESS (by_feature (TestMeanInNSigmas.column_name self)))) /\
    ((cm == 15)%Q ->
     TestMeanInNSigmas.check self
     = Return (mkTestResult TestMeanInNSigmas.name
                 (TestMeanInNSigmas.expected_range self (Fmt ".3g" cm) lo hi)
                 FAIL (by_feature (TestMeanInNSigmas.column_name self)))).
Proof.
  intros Hn Hr Href Hcur Hreff Hcm Hrm Hrs Em Es.
  pose proof (mean_check_present self r ref cur_fs ref_fs cm rm rs
                Hr Href Hcur Hreff Hcm Hrm Hrs) as Hcheck.
  cbn zeta in Hcheck. rewrite Hn in Hcheck.
  exists (rm - rs * inject_Z 2)%Q, (rm + rs * inject_Z 2)%Q.
  assert (Elo : (rm - rs * inject_Z 2 == 6)%Q) by (rewrite Em, Es; reflexivity).
  assert (Ehi : (rm + rs * inject_Z 2 == 14)%Q) by (rewrite Em, Es; reflexivity).
  split; [exact Elo |]. split; [exact Ehi |]. split; intros Ec.
  - assert (H1 : Qltb (rm - rs * inject_Z 2) cm = true)
      by (rewrite Qltb_lt, Elo, Ec; reflexivity).
    assert (H2 : Qltb cm (rm + rs * inject_Z 2) = true)
      by (rewrite Qltb_lt, Ehi, Ec; reflexivity).
    rewrite H1, H2 in Hcheck. exact Hcheck.
  - assert (H2 : Qltb cm (rm + rs * inject_Z 2) = false).
    { apply not_true_iff_false. rewrite Qltb_lt, Ehi, Ec. discriminate. }
    rewrite H2, andb_false_r in Hcheck. exact Hcheck.
Qed.

Lemma mean_in_two_sigmas_witness :
  status <$> TestMeanInNSigmas.check (mean_test 13) = Return SUCCESS
  /\ status <$> TestMeanInNSigmas.check (mean_test 15) = Return FAIL.
Proof.
  split.
  - destruct (mean_in_two_sigmas (mean_test 13) (sample_result 13)
                (mkDataQualityStats {[ "score" := numeric_stats 1 20 10 2 ]})
                (numeric_stats 1 20 13 3) (numeric_stats 1 20 10 2) 13 10 2
                eq_refl eq_refl eq_refl eq_refl eq_refl eq_refl eq_refl eq_refl
                (Qeq_refl 10) (Qeq_refl 2))
      as (lo & hi & _ & _ & Hin & _).
    rewrite (Hin (Qeq_refl 13)). reflexivity.
  - destruct (mean_in_two_sigmas (mean_test 15) (sample_result 15)
                (mkDataQualityStats {[ "score" := numeric_stats 1 20 10 2 ]})
                (numeric_stats 1 20 15 3) (numeric_stats 1 20 10 2) 15 10 2
                eq_refl eq_refl eq_refl eq_refl eq_refl eq_refl eq_refl eq_refl
                (Qeq_refl 10) (Qeq_refl 2))
      as (lo & hi & _ & _ & _ & Hout).
    rewrite (Hout (Qeq_refl 15)). reflexivity.
Defined.



(** ** C4: the generator of mean-stability tests *)

(** C4.  [TestNumColumnsMeanInNSigmas.generate_tests] yields one test
    per numeric feature name, in the order of the catalogue, each with
    [n_sigmas = 2] and a metric of its own that is not yet computed; on
    the numeric names [age] and [income] it yields exactly the test
    bound to [age] followed by the test bound to [income]. *)
Theorem generate_tests_one_per_numeric_column :
  (forall columns_info : DatasetColumns,
      map TestMeanInNSigmas.column_name
          (TestNumColumnsMeanInNSigmas.generate_tests columns_info)
      = num_feature_names columns_info
      /\ Forall (fun t => TestMeanInNSigmas.n_sigmas t = 2%Z
                          /\ TestMeanInNSigmas.metric t = mkMetric tt None)
                (TestNumColumnsMeanInNSigmas.generate_tests columns_info))
  /\ (forall cat all : list string,
         TestNumColumnsMeanInNSigmas.generate_tests
           (mkDatasetColumns ["age"; "income"] cat all)
         = [TestMeanInNSigmas.mk "age" 2 (mkMetric tt None);
            TestMeanInNSigmas.mk "income" 2 (mkMetric tt None)]).
Proof.
  split; [| reflexivity].
  intros [names cat all]. unfold TestNumColumnsMeanInNSigmas.generate_tests.
  cbn [num_feature_names]. induction names as [|n names [IHn IHf]].
  - split; [reflexivity | constructor].
  - split.
    + cbn. f_equal. exact IHn.
    + constructor; [split; reflexivity | exact IHf].
Qed.

(** ** C9: the constructor of the quantile test *)

(** C9.  Constructing a [TestValueQuantile] with a metric injected
    raises a [ValueError] as soon as [column_name] or [quantile] is
    given as well; constructing it without a metric raises a
    [ValueError] when [quantile] is [None]; in every other case the
    construction returns the test. *)
Theorem quantile_constructor_conflicts
    (column_name : option string) (quantile : option Numeric)
    (eq : option EqTarget) (gt gte : option Numeric)
    (is_in : option (list Scalar)) (lt lte : option Numeric)
    (not_eq : option EqTarget) (not_in : option (list Scalar))
    (metric : option DataQualityValueQuantileMetrics) :
  let made :=
    TestValueQuantile.init column_name quantile
      eq gt gte is_in lt lte not_eq not_in metric in
  (metric <> None -> column_name <> None \/ quantile <> None ->
   configuration_error made)
  /\ (metric = None -> quantile = None -> configuration_error made)
  /\ (~ (metric <> None /\ (column_name <> None \/ quantile <> None)) ->
      ~ (metric = None /\ quantile = None) ->
      returns made).
Proof.
  cbn zeta. unfold TestValueQuantile.init, configuration_error, returns.
  destruct metric as [m|], column_name as [c|], quantile as [q|]; cbn;
    repeat split; intros; try congruence; eauto; try tauto;
    try (exfalso; intuition congruence).
Qed.

Lemma quantile_constructor_conflicts_witness :
  configuration_error
    (TestValueQuantile.init (Some "score") None
       None None None None None None None None
       (Some (mkMetric (Some "score", 1 # 2) None)))
  /\ configuration_error
       (TestValueQuantile.init (Some "score") None
          None None None None None None None None None)
  /\ returns
       (TestValueQuantile.init (Some "score") (Some (1 # 2))
          None None None None None None None None None).
Proof.
  split; [| split].
  - apply (proj1 (quantile_constructor_conflicts (Some "score") None
                    None None None None None None None None
                    (Some (mkMetric (Some "score", 1 # 2) None))));
      [discriminate | left; discriminate].
  - apply (proj1 (proj2 (quantile_constructor_conflicts (Some "score") None
                           None None None None None None None None None)));
      reflexivity.
  - apply (proj2 (proj2 (quantile_constructor_conflicts
                           (Some "score") (Some (1 # 2))
                           None None None None None None None None None)));
      intros [H1 H2]; [apply H1; reflexivity | discriminate H2].
Defined.

(** ** C6: no explicit condition and no reference *)

Ltac settle_default :=
  split; [reflexivity | intros ? [= <-]; reflexivity].

Lemma fmap_None_inv {A B} (f : A -> B) (o : option A) :
  f <$> o = None -> o = None.
Proof. destruct o; cbn; congruence. Qed.

Lemma without_reference (t : ConditionTest) :
  has_condition (condition t) = false ->
  lacks_reference t ->
  match fixed_default t with
  | Some d => get_condition t = Return d
  | None => get_condition t = Raise no_parameters_no_reference
  end
  /\ (forall c, get_condition t = Return c -> has_condition c = true).
Proof.
  destruct t as [t|t|t|t|t]; cbn; intros Hc Hl.
  - destruct Hl as (r & Hr & Href).
    destruct (BaseCorr.cls t); autounfold with conditions; rewrite Hc;
      try settle_default;
      rewrite (get_result_computed _ _ Hr); cbn;
      (destruct (reference r) as [side|]; cbn in Href;
       [rewrite Href |]; settle_default).
  - destruct Hl as (r & Hr & [Href | (Hg & stats & fs & Href & Hfs & Hv)]).
    + destruct (BaseFeature.cls t); autounfold with conditions;
        rewrite Hc, (get_result_computed _ _ Hr); cbn; rewrite Href;
        settle_default.
    + destruct (BaseFeature.cls t); try discriminate Hg;
        autounfold with conditions;
        rewrite Hc, (get_result_computed _ _ Hr); cbn; rewrite Href;
        rewrite (getitem_lookup _ _ _ Hfs); cbn;
        cbn in Hv; rewrite (fmap_None_inv _ _ Hv); settle_default.
  - destruct (BaseRange.cls t); autounfold with conditions; rewrite Hc;
      settle_default.
  - destruct (BaseList.cls t); autounfold with conditions; rewrite Hc;
      settle_default.
  - destruct Hl as (r & Hr & Href). autounfold with conditions.
    rewrite Hc, (get_result_computed _ _ Hr); cbn. rewrite Href.
    split; [reflexivity | discriminate].
Qed.

(** Where the defaulting rule holds.  For every test built without an
    explicit condition whose computed metric result gives it no
    reference to use (the reference part is absent, or the check looks
    at the reference statistic first and finds it undefined),
    [get_condition] returns the fixed default
    of the check (for instance [lt=0.9] for the correlation checks and
    [gt=1] for the number of unique values) or, for a check without a
    default, raises the [ValueError] that asks for test parameters or
    reference data; a condition it returns always has a field set. *)
Theorem default_or_configuration_error (t : ConditionTest) :
  has_condition (condition t) = false ->
  lacks_reference t ->
  match fixed_default t with
  | Some d => get_condition t = Return d
  | None => get_condition t = Raise no_parameters_no_reference
  end
  /\ (forall c, get_condition t = Return c -> has_condition c = true)
  /\ get_condition t <> Return empty_condition.
Proof.
  intros Hc Hl. destruct (without_reference t Hc Hl) as [Hd Hset].
  split; [exact Hd |]. split; [exact Hset |].
  intros He. specialize (Hset _ He). discriminate Hset.
Qed.

Lemma default_or_configuration_error_witness :
  get_condition
    (OnCorrelations (correlations_test_on TestHighlyCorrelatedFeatures None))
  = Return (condition_lt (9 # 10))
  /\ get_condition
       (OnFeature (score_test TestNumberOfUniqueValues
                     sample_result_no_reference))
     = Return (condition_gt 1)
  /\ get_condition
       (OnFeature (score_test TestFeatureValueMean sample_result_no_reference))
     = Raise no_parameters_no_reference.
Proof.
  split; [| split].
  - apply (default_or_configuration_error
             (OnCorrelations
                (correlations_test_on TestHighlyCorrelatedFeatures None)));
      [reflexivity |].
    eexists. split; reflexivity.
  - apply (default_or_configuration_error
             (OnFeature (score_test TestNumberOfUniqueValues
                           sample_result_no_reference)));
      [reflexivity |].
    eexists. split; [reflexivity | left; reflexivity].
  - apply (default_or_configuration_error
             (OnFeature (score_test TestFeatureValueMean
                           sample_result_no_reference)));
      [reflexivity |].
    eexists. split; [reflexivity | left; reflexivity].
Defined.

(** ** C6: a reference statistic that is not defined *)

(** C6 fails in the code.  The metric result has reference statistics
    for the column [blank], but every statistic of the column is
    [None]: nothing usable.  The share check tests the statistic for
    [None] and raises the configuration error, as the rule demands; the
    minimum and maximum checks use the statistic untested and return
    the condition with no field set, and the mean check returns an
    approximation of nothing. *)
Theorem unusable_reference_statistic_is_used :
  let test cls := OnFeature (feature_test_on cls "blank" blank_in_both) in
  (forall cls, has_condition (condition (test cls)) = false
               /\ reference_statistic (test cls) = None)
  /\ get_condition (test TestUniqueValuesShare)
     = Raise no_parameters_no_reference
  /\ get_condition (test TestFeatureValueMin) = Return empty_condition
  /\ get_condition (test TestFeatureValueMax) = Return empty_condition
  /\ has_condition empty_condition = false
  /\ fixed_default (test TestFeatureValueMin) = None
  /\ get_condition (test TestFeatureValueMean)
     = Return (condition_eq (approx None (Some (1 # 10)%Q) None)).
Proof.
  cbn zeta. split; [| repeat split].
  intros cls. destruct cls; split; reflexivity.
Qed.

(** ** C7: the condition derived from reference data *)

Lemma bind_Some_inv {A B} (o : option A) (f : A -> option B) (b : B) :
  o ≫= f = Some b -> exists a, o = Some a /\ f a = Some b.
Proof. destruct o as [a|]; cbn; [eauto | discriminate]. Qed.

Lemma fmap_Some_inv {A B} (f : A -> B) (o : option A) (b : B) :
  f <$> o = Some b -> exists a, o = Some a /\ b = f a.
Proof. destruct o as [a|]; cbn; [intros [= <-]; eauto | discriminate]. Qed.

Lemma numeric_of_Some (s : option Scalar) (v : Numeric) :
  numeric_of s = Some v -> s = Some (Num v).
Proof. destruct s as [[q|x]|]; cbn; congruence. Qed.

(** What [get_condition] derives when the metric result carries a
    defined reference value of the checked statistic. *)
Lemma derived_from_reference (t : ConditionTest) (v : Numeric) :
  has_condition (condition t) = false ->
  reference_statistic t = Some v ->
  get_condition t = Return (derived_condition t v).
Proof.
  destruct t as [t|t|t|t|t]; cbn; intros Hc Hv; try discriminate.
  - apply bind_Some_inv in Hv as (r & Hr & Hv).
    apply bind_Some_inv in Hv as (side & Hside & Hv).
    unfold derived_condition, declared_tolerance.
    destruct (BaseCorr.cls t); cbn in Hv; try discriminate;
      autounfold with conditions;
      rewrite Hc, (get_result_computed _ _ Hr); cbn; rewrite Hside, Hv;
      reflexivity.
  - apply bind_Some_inv in Hv as (r & Hr & Hv).
    apply bind_Some_inv in Hv as (stats & Hstats & Hv).
    apply bind_Some_inv in Hv as (fs & Hfs & Hv).
    unfold derived_condition, declared_tolerance.
    destruct (BaseFeature.cls t); cbn in Hv;
      autounfold with conditions;
      rewrite Hc, (get_result_computed _ _ Hr); cbn; rewrite Hstats;
      rewrite (getitem_lookup _ _ _ Hfs); cbn.
    + rewrite (numeric_of_Some _ _ Hv). reflexivity.
    + rewrite (numeric_of_Some _ _ Hv). reflexivity.
    + rewrite Hv. reflexivity.
    + rewrite Hv. reflexivity.
    + rewrite Hv. reflexivity.
    + rewrite Hv. reflexivity.
    + apply fmap_Some_inv in Hv as (p & -> & ->). reflexivity.
    + apply fmap_Some_inv in Hv as (p & -> & ->). reflexivity.
  - apply bind_Some_inv in Hv as (r & Hr & Hv).
    unfold derived_condition, declared_tolerance.
    autounfold with conditions.
    rewrite Hc, (get_result_computed _ _ Hr); cbn. rewrite Hv. reflexivity.
Qed.

(** The current part of the metric result plays no role in resolving
    the condition. *)
Lemma condition_ignores_current (t : ConditionTest) (cur : DataCorrelation)
    (stats : DataQualityStats) (x : Numeric) :
  get_condition (with_current t cur stats x) = get_condition t.
Proof.
  destruct t as [t|t|t|t|t]; cbn; try reflexivity.
  - destruct (BaseCorr.cls t); autounfold with conditions; cbn;
      destruct (has_condition (BaseCorr.condition t)); try reflexivity;
      unfold get_result; cbn; destruct (result (BaseCorr.metric t));
      reflexivity.
  - destruct (BaseFeature.cls t); autounfold with conditions; cbn;
      destruct (has_condition (BaseFeature.condition t)); try reflexivity;
      unfold get_result; cbn; destruct (result (BaseFeature.metric t));
      reflexivity.
  - autounfold with conditions; cbn.
    destruct (has_condition (TestValueQuantile.condition t)); try reflexivity.
    unfold get_result; cbn. destruct (result (TestValueQuantile.metric t));
      reflexivity.
Qed.

(** C7, as the code has it.  For every test built without an explicit
    condition whose metric result carries a defined reference value of
    the checked statistic: the minimum check returns [gte] that value
    and the maximum check returns [lte] that value; every other check
    returns the approximate equality with that value under its declared
    tolerance (absolute 0.25 for the correlation of target and
    prediction, relative 0.1 otherwise).  The value is read from the
    reference part: replacing the current part of the metric result
    leaves the resolved condition unchanged. *)
Theorem reference_derived_condition (t : ConditionTest) (v : Numeric) :
  has_condition (condition t) = false ->
  reference_statistic t = Some v ->
  get_condition t = Return (derived_condition t v)
  /\ (is_min_or_max t = false ->
      get_condition t
      = Return (condition_eq (approx (Some v) (fst (declared_tolerance t))
                                     (snd (declared_tolerance t)))))
  /\ (forall cur stats x,
         get_condition (with_current t cur stats x)
         = Return (derived_condition t v)).
Proof.
  intros Hc Hv. pose proof (derived_from_reference t v Hc Hv) as Hd.
  split; [exact Hd |]. split.
  - intros Hmm. rewrite Hd. f_equal. unfold derived_condition.
    destruct t as [t|t|t|t|t]; try reflexivity.
    cbn in Hmm. destruct (BaseFeature.cls t); try reflexivity; discriminate.
  - intros cur stats x. rewrite condition_ignores_current. exact Hd.
Qed.

Lemma reference_derived_condition_witness :
  get_condition
    (OnFeature (score_test TestFeatureValueMean (sample_result 13)))
  = Return (condition_eq (approx (Some 10%Q) (Some (1 # 10)%Q) None)).
Proof.
  apply (proj1 (proj2 (reference_derived_condition
                         (OnFeature (score_test TestFeatureValueMean
                                       (sample_result 13)))
                         10%Q eq_refl eq_refl))).
  reflexivity.
Defined.

(** C7 as the specification states it fails on the minimum check: the sample
    result carries the reference minimum 1 of the column [score], and
    the resolved condition is [gte=1], with no equality target at all. *)
Lemma minimum_is_not_approximated :
  has_condition (condition (OnFeature (score_test TestFeatureValueMin
                                         (sample_result 13)))) = false
  /\ reference_statistic (OnFeature (score_test TestFeatureValueMin
                                       (sample_result 13))) = Some 1%Q
  /\ ~ (exists c a,
          get_condition (OnFeature (score_test TestFeatureValueMin
                                      (sample_result 13))) = Return c
          /\ cond_eq c = Some (Approximately a)).
Proof.
  split; [reflexivity |]. split; [reflexivity |].
  intros (c & a & Hc & Heq).
  rewrite (derived_from_reference
             (OnFeature (score_test TestFeatureValueMin (sample_result 13)))
             1%Q eq_refl eq_refl) in Hc.
  injection Hc as <-. discriminate Heq.
Qed.

(** ** C8: absent inputs at check time *)

Lemma mean_check_without_reference (self : TestMeanInNSigmas.t)
    (r : DataQualityMetricsResults) :
  result (TestMeanInNSigmas.metric self) = Some r ->
  reference_features_stats r = None ->
  TestMeanInNSigmas.check self = Raise (ValueError "Reference should be present").
Proof.
  intros Hr Href. unfold TestMeanInNSigmas.check.
  rewrite (get_result_computed _ _ Hr). cbn. rewrite Href. reflexivity.
Qed.

Lemma mean_check_absent_column (self : TestMeanInNSigmas.t)
    (r : DataQualityMetricsResults) (ref : DataQualityStats) :
  result (TestMeanInNSigmas.metric self) = Some r ->
  reference_features_stats r = Some ref ->
  not_in (TestMeanInNSigmas.column_name self)
         (get_all_features (features_stats r)) = true
  \/ not_in (TestMeanInNSigmas.column_name self) (get_all_features ref) = true ->
  status <$> TestMeanInNSigmas.check self = Return ERROR.
Proof.
  intros Hr Href Habs. unfold TestMeanInNSigmas.check.
  rewrite (get_result_computed _ _ Hr). cbn. rewrite Href.
  destruct (not_in (TestMeanInNSigmas.column_name self)
                   (get_all_features (features_stats r))) eqn:Hcur;
    [reflexivity |].
  destruct Habs as [Habs|Habs]; [discriminate |].
  rewrite Habs. reflexivity.
Qed.

Lemma check_absent_value (self : BaseFeature.t) (r : DataQualityMetricsResults)
    (res : TestResult) :
  result (BaseFeature.metric self) = Some r ->
  not_in (BaseFeature.column_name self) (get_all_features (features_stats r))
    = false ->
  BaseCheckValueTest_check self = Return (res, None) ->
  BaseFeatureDataQualityMetricsTest_check self
  = Return (mark_as_error res
              (Some (no_value_for_feature (BaseFeature.column_name self))),
            None).
Proof.
  intros Hr Hcol Hsuper. unfold BaseFeatureDataQualityMetricsTest_check.
  rewrite (get_result_computed _ _ Hr). cbn -[BaseCheckValueTest_check].
  rewrite Hcol, Hsuper. reflexivity.
Qed.

(** C8, as the code has it.  An absent input is captured as a result
    with status ERROR, and nothing is raised, in these cases: the count
    of unstable targets, or predictions, is [None]; the column of a
    mean-stability test is missing from the current statistics or from
    the reference statistics while reference data is present; the
    inherited check of a per-feature test on a column that was found
    returns with the value [None].  Reference data that is required and
    absent is not captured: the check of the mean-stability test and the
    value of the correlation-changes test raise
    [ValueError("Reference should be present")]. *)
Theorem absent_input_outcomes :
  (forall (self : TestConflictTarget.t) r,
      result (TestConflictTarget.metric self) = Some r ->
      number_not_stable_target r = None ->
      status <$> TestConflictTarget.check self = Return ERROR)
  /\ (forall (self : TestConflictPrediction.t) r,
         result (TestConflictPrediction.metric self) = Some r ->
         number_not_stable_prediction r = None ->
         status <$> TestConflictPrediction.check self = Return ERROR)
  /\ (forall (self : TestMeanInNSigmas.t) r ref,
         result (TestMeanInNSigmas.metric self) = Some r ->
         reference_features_stats r = Some ref ->
         not_in (TestMeanInNSigmas.column_name self)
                (get_all_features (features_stats r)) = true
         \/ not_in (TestMeanInNSigmas.column_name self)
                   (get_all_features ref) = true ->
         status <$> TestMeanInNSigmas.check self = Return ERROR)
  /\ (forall (self : BaseFeature.t) r res,
         result (BaseFeature.metric self) = Some r ->
         not_in (BaseFeature.column_name self)
                (get_all_features (features_stats r)) = false ->
         BaseCheckValueTest_check self = Return (res, None) ->
         status_of (check (OnFeature self)) = Return ERROR)
  /\ (forall (self : TestMeanInNSigmas.t) r,
         result (TestMeanInNSigmas.metric self) = Some r ->
         reference_features_stats r = None ->
         TestMeanInNSigmas.check self
         = Raise (ValueError "Reference should be present"))
  /\ (forall corr_diff (self : BaseCorr.t) r,
         result (BaseCorr.metric self) = Some r ->
         reference r = None ->
         TestCorrelationChanges.calculate_value_for_test corr_diff self
         = Raise (ValueError "Reference should be present")).
Proof.
  repeat split.
  - intros self r Hr Hnone. unfold TestConflictTarget.check.
    rewrite (get_result_computed _ _ Hr). cbn. rewrite Hnone. reflexivity.
  - intros self r Hr Hnone. unfold TestConflictPrediction.check.
    rewrite (get_result_computed _ _ Hr). cbn. rewrite Hnone. reflexivity.
  - exact mean_check_absent_column.
  - intros self r res Hr Hcol Hsuper. unfold check.
    rewrite (check_absent_value self r res Hr Hcol Hsuper). reflexivity.
  - exact mean_check_without_reference.
  - intros corr_diff self r Hr Href.
    unfold TestCorrelationChanges.calculate_value_for_test.
    rewrite (get_result_computed _ _ Hr). cbn. rewrite Href. reflexivity.
Qed.

Lemma absent_input_outcomes_witness :
  status <$> TestConflictTarget.check
               (TestConflictTarget.init no_target_no_prediction)
  = Return ERROR
  /\ status <$> TestConflictPrediction.check
                  (TestConflictPrediction.init no_target_no_prediction)
     = Return ERROR
  /\ status <$> TestMeanInNSigmas.check absent_column_test = Return ERROR
  /\ status_of (check (OnFeature label_min_test)) = Return ERROR
  /\ TestMeanInNSigmas.check missing_reference_test
     = Raise (ValueError "Reference should be present")
  /\ TestCorrelationChanges.calculate_value_for_test (1 # 4)
       (correlations_test_on (TestCorrelationChanges (1 # 4)) None)
     = Raise (ValueError "Reference should be present").
Proof.
  destruct absent_input_outcomes as (Ht & Hp & Hcol & Hval & Href & Hcorr).
  split; [| split; [| split; [| split; [| split]]]].
  - apply (Ht (TestConflictTarget.init no_target_no_prediction)
              {| number_not_stable_target := None;
                 number_not_stable_prediction := None |}); reflexivity.
  - apply (Hp (TestConflictPrediction.init no_target_no_prediction)
              {| number_not_stable_target := None;
                 number_not_stable_prediction := None |}); reflexivity.
  - apply (Hcol absent_column_test (sample_result 13)
             (mkDataQualityStats {[ "score" := numeric_stats 1 20 10 2 ]}));
      [reflexivity | reflexivity | left; reflexivity].
  - apply (Hval label_min_test label_result
             (mkTestResult "Min Value"
                [Lit "The minimum value of the column **"; Lit "label";
                 Lit "** is "; Plain None; Lit " "; Lit "The test threshold is ";
                 OfCondition (condition_gt 0); Lit "."]
                ERROR (by_feature "label")));
      reflexivity.
  - apply (Href missing_reference_test sample_result_no_reference);
      reflexivity.
  - apply (Hcorr (1 # 4)%Q
             (correlations_test_on (TestCorrelationChanges (1 # 4)) None)
             (mkCorrelationResults (sample_correlation (1 # 2)) None));
      reflexivity.
Defined.

(** C8 as the specification states it fails: on a result computed without
    reference data the check of the mean-stability test returns no
    result at all, it raises. *)
Lemma missing_reference_is_raised :
  reference_features_stats sample_result_no_reference = None
  /\ TestMeanInNSigmas.check missing_reference_test
     = Raise (ValueError "Reference should be present")
  /\ ~ (exists res, TestMeanInNSigmas.check missing_reference_test = Return res
                    /\ status res = ERROR).
Proof.
  split; [reflexivity |].
  pose proof (mean_check_without_reference missing_reference_test
                sample_result_no_reference eq_refl eq_refl) as Hraise.
  split; [exact Hraise |].
  intros (res & Hres & _). rewrite Hraise in Hres. discriminate Hres.
Qed.

(** ** C5: groups *)

Lemma bind_return_inv {A B} (m : Exc A) (f : A -> B) (b : B) :
  (m ≫= fun a => Return (f a)) = Return b -> exists a, b = f a.
Proof. destruct m as [a|e]; cbn; [intros [= <-]; eauto | discriminate]. Qed.

Lemma status_ignores_groups {T} (I : CheckValueTest T)
    (g : T -> gmap string (option string)) (self : T) :
  status_of (@BaseCheckValueTest_check T (with_groups I g) self)
  = status_of (@BaseCheckValueTest_check T I self).
Proof.
  unfold status_of, BaseCheckValueTest_check. cbn.
  destruct (get_condition self) as [c|e]; cbn; [| reflexivity].
  destruct (calculate_value_for_test self) as [v|e]; cbn; [| reflexivity].
  destruct (get_description self v) as [d|e]; reflexivity.
Qed.

Lemma groups_are_merged {T} (I : CheckValueTest T) (self : T)
    (rv : TestResult * option Numeric) :
  @BaseCheckValueTest_check T I self = Return rv ->
  groups (fst rv) = test_groups self.
Proof.
  unfold BaseCheckValueTest_check.
  destruct (get_condition self) as [c|e]; cbn; [| discriminate].
  destruct (calculate_value_for_test self) as [v|e]; cbn; [| discriminate].
  destruct (get_description self v) as [d|e]; cbn; [| discriminate].
  intros [= <-]. reflexivity.
Qed.



(** ** Reference statistics that are present but undefined *)

(** The minimum check does not look at the reference minimum before it
    uses it: when the reference statistics have the column and its
    minimum is undefined, the resolved condition has no field set. *)
Remark minimum_of_undefined_reference (self : BaseFeature.t)
    (r : DataQualityMetricsResults) (stats : DataQualityStats)
    (fs : FeatureQualityStats) :
  BaseFeature.cls self = TestFeatureValueMin ->
  has_condition (BaseFeature.condition self) = false ->
  result (BaseFeature.metric self) = Some r ->
  reference_features_stats r = Some stats ->
  get_all_features stats !! BaseFeature.column_name self = Some fs ->
  stats_min fs = None ->
  get_condition (OnFeature self) = Return empty_condition.
Proof.
  intros Hcls Hc Hr Hstats Hfs Hmin. cbn. rewrite Hcls.
  unfold TestFeatureValueMin.get_condition.
  rewrite Hc, (get_result_computed _ _ Hr). cbn. rewrite Hstats.
  rewrite (getitem_lookup _ _ _ Hfs). cbn. rewrite Hmin. reflexivity.
Qed.

(** * Further properties of the code *)

(** ** The mean within n sigmas, in general *)

Lemma Qabs_cases (x : Q) :
  (0 <= x /\ Qabs x = x)%Q \/ (x < 0 /\ Qabs x = - x)%Q.
Proof.
  unfold Qabs. destruct (Qle_bool 0 x) eqn:E.
  - left. split; [apply Qle_bool_iff; exact E | reflexivity].
  - right. split; [| reflexivity].
    apply Qnot_le_lt. intros H. apply Qle_bool_iff in H. congruence.
Qed.

Lemma Qltb_false (x y : Q) : Qltb x y = false <-> (y <= x)%Q.
Proof.
  unfold Qltb. rewrite negb_false_iff. apply Qle_bool_iff.
Qed.

Lemma between_iff_close (cm rm w : Q) :
  Qltb (rm - w) cm && Qltb cm (rm + w) = Qltb (Qabs (cm - rm)) w.
Proof.
  apply eq_true_iff_eq. rewrite andb_true_iff, !Qltb_lt.
  destruct (Qabs_cases (cm - rm)) as [[H ->]|[H ->]]; split; intros; lra.
Qed.

(** In the exact arithmetic of the model the two strict comparisons
    amount to one comparison of distances.  The lemma serves the proofs
    below, whose statements depend on the order of the bounds only. *)
Lemma mean_status_closed_form (self : TestMeanInNSigmas.t)
    (r : DataQualityMetricsResults) (ref : DataQualityStats)
    (cur_fs ref_fs : FeatureQualityStats) (cm rm rs : Numeric) :
  result (TestMeanInNSigmas.metric self) = Some r ->
  reference_features_stats r = Some ref ->
  get_all_features (features_stats r) !! TestMeanInNSigmas.column_name self
    = Some cur_fs ->
  get_all_features ref !! TestMeanInNSigmas.column_name self = Some ref_fs ->
  mean cur_fs = Some cm -> mean ref_fs = Some rm -> std ref_fs = Some rs ->
  status <$> TestMeanInNSigmas.check self
  = Return (if Qltb (Qabs (cm - rm))
                    (rs * inject_Z (TestMeanInNSigmas.n_sigmas self))
            then SUCCESS else FAIL).
Proof.
  intros Hr Href Hcur Hreff Hcm Hrm Hrs.
  rewrite (mean_check_present self r ref cur_fs ref_fs cm rm rs
             Hr Href Hcur Hreff Hcm Hrm Hrs).
  cbn. rewrite between_iff_close. reflexivity.
Qed.





Lemma mean_check_none_statistic (self : TestMeanInNSigmas.t)
    (r : DataQualityMetricsResults) (ref : DataQualityStats)
    (cur_fs ref_fs : FeatureQualityStats) :
  result (TestMeanInNSigmas.metric self) = Some r ->
  reference_features_stats r = Some ref ->
  get_all_features (features_stats r) !! TestMeanInNSigmas.column_name self
    = Some cur_fs ->
  get_all_features ref !! TestMeanInNSigmas.column_name self = Some ref_fs ->
  mean cur_fs = None \/ mean ref_fs = None \/ std ref_fs = None ->
  TestMeanInNSigmas.check self = Raise TypeError.
Proof.
  intros Hr Href Hcur Hreff Hnone.
  unfold TestMeanInNSigmas.check.
  rewrite (get_result_computed _ _ Hr). cbn. rewrite Href.
  unfold not_in, stats_getitem, getitem. rewrite Hcur, Hreff. cbn.
  destruct (std ref_fs) as [rs|]; cbn; [| reflexivity].
  destruct (mean ref_fs) as [rm|]; cbn; [| reflexivity].
  destruct (mean cur_fs) as [cm|]; cbn; [| reflexivity].
  destruct Hnone as [H|[H|H]]; discriminate H.
Qed.



Lemma mean_check_present_cases (self : TestMeanInNSigmas.t)
    (r : DataQualityMetricsResults) (ref : DataQualityStats) :
  result (TestMeanInNSigmas.metric self) = Some r ->
  reference_features_stats r = Some ref ->
  not_in (TestMeanInNSigmas.column_name self)
         (get_all_features (features_stats r)) = false ->
  not_in (TestMeanInNSigmas.column_name self) (get_all_features ref) = false ->
  TestMeanInNSigmas.check self = Raise TypeError
  \/ status <$> TestMeanInNSigmas.check self = Return SUCCESS
  \/ status <$> TestMeanInNSigmas.check self = Return FAIL.
Proof.
  intros Hr Href Hcur Hreff.
  unfold not_in in Hcur, Hreff.
  destruct (get_all_features (features_stats r)
              !! TestMeanInNSigmas.column_name self) as [cur_fs|] eqn:Ecur;
    [| discriminate].
  destruct (get_all_features ref !! TestMeanInNSigmas.column_name self)
    as [ref_fs|] eqn:Eref; [| discriminate].
  destruct (mean cur_fs) as [cm|] eqn:Ecm;
    [| left; eapply mean_check_none_statistic; eauto].
  destruct (mean ref_fs) as [rm|] eqn:Erm;
    [| left; eapply mean_check_none_statistic; eauto].
  destruct (std ref_fs) as [rs|] eqn:Ers;
    [| left; eapply mean_check_none_statistic; eauto].
  right.
  rewrite (mean_status_closed_form self r ref cur_fs ref_fs cm rm rs
             Hr Href Ecur Eref Ecm Erm Ers).
  destruct (Qltb _ _); [left | right]; reflexivity.
Qed.

(** With reference data present, the mean-stability check ends with
    ERROR exactly when its column is missing from the current or from
    the reference statistics. *)
Theorem mean_error_iff_absent_column (self : TestMeanInNSigmas.t)
    (r : DataQualityMetricsResults) (ref : DataQualityStats) :
  result (TestMeanInNSigmas.metric self) = Some r ->
  reference_features_stats r = Some ref ->
  status <$> TestMeanInNSigmas.check self = Return ERROR
  <-> not_in (TestMeanInNSigmas.column_name self)
             (get_all_features (features_stats r)) = true
      \/ not_in (TestMeanInNSigmas.column_name self)
                (get_all_features ref) = true.
Proof.
  intros Hr Href. split.
  - intros Herr.
    destruct (not_in (TestMeanInNSigmas.column_name self)
                     (get_all_features (features_stats r))) eqn:Hcur;
      [left; reflexivity |].
    destruct (not_in (TestMeanInNSigmas.column_name self)
                     (get_all_features ref)) eqn:Hreff;
      [right; reflexivity |].
    destruct (mean_check_present_cases self r ref Hr Href Hcur Hreff)
      as [H|[H|H]]; rewrite H in Herr; discriminate Herr.
  - apply mean_check_absent_column; assumption.
Qed.

Lemma mean_error_iff_absent_column_witness :
  status <$> TestMeanInNSigmas.check absent_column_test = Return ERROR
  <-> not_in "region"
             (get_all_features (features_stats (sample_result 13))) = true
      \/ not_in "region"
                (get_all_features
                   (mkDataQualityStats {[ "score" := numeric_stats 1 20 10 2 ]}))
         = true.
Proof.
  apply (mean_error_iff_absent_column absent_column_test (sample_result 13)
           (mkDataQualityStats {[ "score" := numeric_stats 1 20 10 2 ]}));
    reflexivity.
Defined.

(** ** Rendering the mean-stability test *)



(** A mean-stability test that ended with ERROR cannot be rendered:
    when its column is missing from the current statistics,
    [render_json] raises [KeyError]; when the column is missing from the
    reference statistics, [render_json] (the column being in the current
    ones) and the range of [render_html] raise [KeyError]. *)
Theorem error_result_is_not_rendered (self : TestMeanInNSigmas.t)
    (parameters : gmap string JsonValue)
    (r : DataQualityMetricsResults) (ref : DataQualityStats) :
  result (TestMeanInNSigmas.metric self) = Some r ->
  reference_features_stats r = Some ref ->
  (not_in (TestMeanInNSigmas.column_name self)
          (get_all_features (features_stats r)) = true ->
   status <$> TestMeanInNSigmas.check self = Return ERROR
   /\ TestMeanInNSigmasRenderer.render_json parameters self
      = Raise (KeyError (TestMeanInNSigmas.column_name self)))
  /\ (not_in (TestMeanInNSigmas.column_name self) (get_all_features ref)
      = true ->
      status <$> TestMeanInNSigmas.check self = Return ERROR
      /\ TestMeanInNSigmasRenderer.ref_condition self
         = Raise (KeyError (TestMeanInNSigmas.column_name self))
      /\ (not_in (TestMeanInNSigmas.column_name self)
                 (get_all_features (features_stats r)) = false ->
          TestMeanInNSigmasRenderer.render_json parameters self
          = Raise (KeyError (TestMeanInNSigmas.column_name self)))).
Proof.
  intros Hr Href. split.
  - intros Hcur. split.
    + apply (mean_check_absent_column self r ref Hr Href). left. exact Hcur.
    + unfold TestMeanInNSigmasRenderer.render_json.
      rewrite (get_result_computed _ _ Hr). cbn.
      unfold stats_getitem, getitem. unfold not_in in Hcur.
      destruct (get_all_features (features_stats r)
                  !! TestMeanInNSigmas.column_name self); [discriminate |].
      reflexivity.
  - intros Hreff. split; [| split].
    + apply (mean_check_absent_column self r ref Hr Href). right. exact Hreff.
    + unfold TestMeanInNSigmasRenderer.ref_condition.
      rewrite (get_result_computed _ _ Hr). cbn. rewrite Href.
      unfold stats_getitem, getitem. unfold not_in in Hreff.
      destruct (get_all_features ref !! TestMeanInNSigmas.column_name self);
        [discriminate |].
      reflexivity.
    + intros Hcur. unfold TestMeanInNSigmasRenderer.render_json.
      rewrite (get_result_computed _ _ Hr). cbn.
      unfold stats_getitem, getitem. unfold not_in in Hcur, Hreff.
      destruct (get_all_features (features_stats r)
                  !! TestMeanInNSigmas.column_name self); [| discriminate].
      cbn. rewrite Href.
      destruct (get_all_features ref !! TestMeanInNSigmas.column_name self);
        [discriminate |].
      reflexivity.
Qed.

Lemma error_result_is_not_rendered_witness :
  (status <$> TestMeanInNSigmas.check absent_column_test = Return ERROR
   /\ TestMeanInNSigmasRenderer.render_json ∅ absent_column_test
      = Raise (KeyError "region"))
  /\ TestMeanInNSigmasRenderer.ref_condition
       (TestMeanInNSigmas.init "label" 2 (Some (computed label_and_reference)))
     = Raise (KeyError "label").
Proof.
  split.
  - apply (proj1 (error_result_is_not_rendered absent_column_test ∅
                    (sample_result 13)
                    (mkDataQualityStats
                       {[ "score" := numeric_stats 1 20 10 2 ]})
                    eq_refl eq_refl)).
    reflexivity.
  - apply (proj2 (error_result_is_not_rendered
                    (TestMeanInNSigmas.init "label" 2
                       (Some (computed label_and_reference)))
                    ∅ label_and_reference
                    (mkDataQualityStats
                       {[ "score" := numeric_stats 1 20 10 2 ]})
                    eq_refl eq_refl)).
    reflexivity.
Defined.

(** What [render_json] writes: the column, the number of sigmas and the
    current mean; the reference mean and standard deviation as well when
    there is reference data; every other parameter is left as the
    inherited method gave it. *)
Theorem render_json_parameters (self : TestMeanInNSigmas.t)
    (parameters written : gmap string JsonValue) :
  TestMeanInNSigmasRenderer.render_json parameters self = Return written ->
  written !! "column_name" = Some (JStr (TestMeanInNSigmas.column_name self))
  /\ written !! "n_sigmas" = Some (JInt (TestMeanInNSigmas.n_sigmas self))
  /\ (exists m, written !! "current_mean" = Some (JNum m))
  /\ (forall key,
         key <> "column_name" -> key <> "n_sigmas" -> key <> "current_mean" ->
         key <> "reference_mean" -> key <> "reference_std" ->
         written !! key = parameters !! key)
  /\ (forall r, result (TestMeanInNSigmas.metric self) = Some r ->
         match reference_features_stats r with
         | Some _ =>
             (exists m, written !! "reference_mean" = Some (JNum m))
             /\ (exists s, written !! "reference_std" = Some (JNum s))
         | None =>
             written !! "reference_mean" = parameters !! "reference_mean"
             /\ written !! "reference_std" = parameters !! "reference_std"
         end).
Proof.
  unfold TestMeanInNSigmasRenderer.render_json.
  destruct (get_result (TestMeanInNSigmas.metric self)) as [r|e] eqn:Hres;
    cbn; [| discriminate].
  destruct (stats_getitem (features_stats r)
              (TestMeanInNSigmas.column_name self)) as [cur|e];
    cbn; [| discriminate].
  assert (Hr' : forall r', result (TestMeanInNSigmas.metric self) = Some r' ->
                           r' = r).
  { intros r' Hr'. rewrite (get_result_computed _ _ Hr') in Hres.
    congruence. }
  destruct (reference_features_stats r) as [reference|] eqn:Href.
  - destruct (stats_getitem reference (TestMeanInNSigmas.column_name self))
      as [ref|e]; cbn; [| discriminate].
    intros [= <-]. repeat split.
    + by simplify_map_eq.
    + by simplify_map_eq.
    + eexists. by simplify_map_eq.
    + intros key H1 H2 H3 H4 H5. by simplify_map_eq.
    + intros r' Hr. rewrite (Hr' r' Hr), Href. split; eexists; by simplify_map_eq.
  - intros [= <-]. repeat split.
    + by simplify_map_eq.
    + by simplify_map_eq.
    + eexists. by simplify_map_eq.
    + intros key H1 H2 H3 H4 H5. by simplify_map_eq.
    + intros r' Hr. rewrite (Hr' r' Hr), Href. split; by simplify_map_eq.
Qed.

Lemma render_json_parameters_witness :
  exists written,
    TestMeanInNSigmasRenderer.render_json {[ "kept" := JInt 1 ]} (mean_test 13)
    = Return written
    /\ written !! "column_name" = Some (JStr "score")
    /\ written !! "kept" = Some (JInt 1).
Proof.
  eexists. split; [reflexivity |].
  split.
  - apply (render_json_parameters (mean_test 13) {[ "kept" := JInt 1 ]} _
             eq_refl).
  - rewrite (proj1 (proj2 (proj2 (proj2
               (render_json_parameters (mean_test 13) {[ "kept" := JInt 1 ]} _
                  eq_refl)))) "kept"); [reflexivity | | | | |]; discriminate.
Defined.

(** ** Per-feature tests: missing columns and statistics of the wrong kind *)

(** Reference data without the column: a per-feature test built
    without an explicit condition raises [KeyError] for its column when
    it resolves its condition, whichever statistic it checks. *)
Theorem reference_without_column (self : BaseFeature.t)
    (r : DataQualityMetricsResults) (stats : DataQualityStats) :
  has_condition (BaseFeature.condition self) = false ->
  result (BaseFeature.metric self) = Some r ->
  reference_features_stats r = Some stats ->
  not_in (BaseFeature.column_name self) (get_all_features stats) = true ->
  get_condition (OnFeature self) = Raise (KeyError (BaseFeature.column_name self)).
Proof.
  intros Hc Hr Hstats Hcol. cbn. unfold not_in in Hcol.
  destruct (get_all_features stats !! BaseFeature.column_name self) eqn:E;
    [discriminate |].
  destruct (BaseFeature.cls self); autounfold with conditions;
    rewrite Hc, (get_result_computed _ _ Hr); cbn; rewrite Hstats;
    unfold getitem; rewrite E; reflexivity.
Qed.

Lemma reference_without_column_witness :
  get_condition
    (OnFeature (feature_test_on TestFeatureValueMean "label" label_and_reference))
  = Raise (KeyError "label").
Proof.
  apply (reference_without_column
           (feature_test_on TestFeatureValueMean "label" label_and_reference)
           label_and_reference
           (mkDataQualityStats {[ "score" := numeric_stats 1 20 10 2 ]}));
    reflexivity.
Defined.

(** The value of a per-feature test cannot be computed for a column
    that the current statistics lack: [calculate_value_for_test] raises
    [KeyError] for the column exactly in that case, which is the case
    that [check] handles before it asks for the value. *)
Theorem value_key_error_iff_absent (self : BaseFeature.t)
    (r : DataQualityMetricsResults) :
  result (BaseFeature.metric self) = Some r ->
  calculate_value_for_test self = Raise (KeyError (BaseFeature.column_name self))
  <-> not_in (BaseFeature.column_name self)
             (get_all_features (features_stats r)) = true.
Proof.
  intros Hr. cbn. unfold not_in.
  destruct (get_all_features (features_stats r) !! BaseFeature.column_name self)
    as [fs|] eqn:E; cbn.
  - split; [| discriminate].
    destruct (BaseFeature.cls self); autounfold with values;
      rewrite (get_result_computed _ _ Hr); cbn;
      unfold getitem; rewrite E; cbn; try discriminate.
    + destruct (isinstance_str (stats_min fs)); discriminate.
    + destruct (isinstance_str (stats_max fs)); discriminate.
  - split; [reflexivity |]. intros _.
    destruct (BaseFeature.cls self); autounfold with values;
      rewrite (get_result_computed _ _ Hr); cbn;
      unfold getitem; rewrite E; reflexivity.
Qed.

Lemma value_key_error_iff_absent_witness :
  calculate_value_for_test region_test = Raise (KeyError "region")
  <-> not_in "region" (get_all_features (features_stats (sample_result 13)))
      = true.
Proof.
  apply (value_key_error_iff_absent region_test (sample_result 13)).
  reflexivity.
Defined.

(** A column whose minimum (maximum) is a string: the minimum
    (maximum) test raises the same [ValueError], naming the column, when
    it computes its value from such current statistics and when it
    derives its condition from such reference statistics. *)
Theorem string_statistic_is_rejected (self : BaseFeature.t)
    (r : DataQualityMetricsResults) (fs : FeatureQualityStats) (s : string) :
  result (BaseFeature.metric self) = Some r ->
  (BaseFeature.cls self = TestFeatureValueMin /\ stats_min fs = Some (Str s))
  \/ (BaseFeature.cls self = TestFeatureValueMax /\ stats_max fs = Some (Str s)) ->
  (get_all_features (features_stats r) !! BaseFeature.column_name self = Some fs ->
   calculate_value_for_test self
   = Raise (ValueError (BaseFeature.column_name self
                        ++ " should be numerical or bool")))
  /\ (forall stats,
         has_condition (BaseFeature.condition self) = false ->
         reference_features_stats r = Some stats ->
         get_all_features stats !! BaseFeature.column_name self = Some fs ->
         get_condition self
         = Raise (ValueError (BaseFeature.column_name self
                              ++ " should be numerical or bool"))).
Proof.
  intros Hr [[Hcls Hs]|[Hcls Hs]]; cbn; rewrite Hcls; split.
  - intros Hfs. unfold TestFeatureValueMin.calculate_value_for_test.
    rewrite (get_result_computed _ _ Hr). cbn.
    rewrite (getitem_lookup _ _ _ Hfs). cbn. rewrite Hs. reflexivity.
  - intros stats Hc Hstats Hfs. unfold TestFeatureValueMin.get_condition.
    rewrite Hc, (get_result_computed _ _ Hr). cbn. rewrite Hstats.
    rewrite (getitem_lookup _ _ _ Hfs). cbn. rewrite Hs. reflexivity.
  - intros Hfs. unfold TestFeatureValueMax.calculate_value_for_test.
    rewrite (get_result_computed _ _ Hr). cbn.
    rewrite (getitem_lookup _ _ _ Hfs). cbn. rewrite Hs. reflexivity.
  - intros stats Hc Hstats Hfs. unfold TestFeatureValueMax.get_condition.
    rewrite Hc, (get_result_computed _ _ Hr). cbn. rewrite Hstats.
    rewrite (getitem_lookup _ _ _ Hfs). cbn. rewrite Hs. reflexivity.
Qed.

Lemma string_statistic_is_rejected_witness :
  calculate_value_for_test (feature_test_on TestFeatureValueMin "name" name_result)
  = Raise (ValueError "name should be numerical or bool")
  /\ get_condition (feature_test_on TestFeatureValueMin "name" name_result)
     = Raise (ValueError "name should be numerical or bool").
Proof.
  destruct (string_statistic_is_rejected
              (feature_test_on TestFeatureValueMin "name" name_result)
              name_result name_stats "ann" eq_refl
              (or_introl (conj eq_refl eq_refl))) as [Hv Hc].
  split.
  - apply Hv. reflexivity.
  - apply (Hc (mkDataQualityStats {[ "name" := name_stats ]})); reflexivity.
Defined.

(** ** Values and descriptions of the value checks *)

(** The value under test is read from the current part of the metric
    result alone: except for the correlation-changes test, which
    compares the two parts, replacing the reference part leaves
    [calculate_value_for_test] unchanged. *)
Theorem value_ignores_reference (t : ConditionTest)
    (ref : option DataCorrelation) (stats : option DataQualityStats)
    (v : option Numeric) :
  is_correlation_changes t = false ->
  calculate_value_for_test (with_reference t ref stats v)
  = calculate_value_for_test t.
Proof.
  destruct t as [t|t|t|t|t]; cbn; intros Hch; try reflexivity.
  - destruct (BaseCorr.cls t); try discriminate Hch;
      autounfold with values; unfold get_result; cbn;
      destruct (result (BaseCorr.metric t)); reflexivity.
  - destruct (BaseFeature.cls t);
      autounfold with values; unfold get_result; cbn;
      destruct (result (BaseFeature.metric t)); reflexivity.
  - autounfold with values; unfold get_result; cbn.
    destruct (result (TestValueQuantile.metric t)); reflexivity.
Qed.

Lemma value_ignores_reference_witness :
  calculate_value_for_test
    (with_reference
       (OnFeature (feature_test_on TestFeatureValueMean "score" (sample_result 13)))
       None None None)
  = Return (Some 13%Q).
Proof.
  rewrite (value_ignores_reference
             (OnFeature (feature_test_on TestFeatureValueMean "score"
                           (sample_result 13)))
             None None None eq_refl).
  reflexivity.
Defined.

Ltac split_binds :=
  repeat match goal with
         | |- context [mbind _ ?m] =>
             let E := fresh "E" in destruct m eqn:E; cbn
         | |- context [match ?m with Return _ => _ | Raise _ => _ end] =>
             let E := fresh "E" in destruct m eqn:E; cbn
         end.

(** The description of a defined value quotes the threshold in force:
    whenever [get_description] returns for a value that is not [None],
    [get_condition] returns as well and the condition it returns is one
    of the pieces of the description. *)
Theorem description_quotes_condition (t : ConditionTest) (v : Numeric)
    (d : Description) :
  get_description t (Some v) = Return d ->
  exists c, get_condition t = Return c /\ In (OfCondition c) d.
Proof.
  destruct t as [t|t|t|t|t]; cbn.
  - destruct (BaseCorr.cls t); autounfold with descriptions; cbn;
      split_binds; intros [= <-]; eexists; (split; [reflexivity |]);
      cbn; tauto.
  - destruct (BaseFeature.cls t); autounfold with descriptions; cbn;
      split_binds; intros [= <-]; eexists; (split; [reflexivity |]);
      cbn; tauto.
  - destruct (BaseRange.cls t); autounfold with descriptions; cbn;
      split_binds; intros [= <-]; eexists; (split; [reflexivity |]);
      cbn; tauto.
  - destruct (BaseList.cls t); autounfold with descriptions; cbn;
      split_binds; intros [= <-]; eexists; (split; [reflexivity |]);
      cbn; tauto.
  - autounfold with descriptions; cbn;
      split_binds; intros [= <-]; eexists; (split; [reflexivity |]);
      cbn; tauto.
Qed.

Lemma description_quotes_condition_witness :
  exists c,
    get_condition
      (OnFeature (feature_test_on TestFeatureValueMean "score" (sample_result 13)))
    = Return c
    /\ In (OfCondition c)
          [Lit "The mean value of the column **"; Lit "score"; Lit "** is ";
           Fmt ".3g" 13; Lit ". "; Lit "The test threshold is ";
           OfCondition (condition_eq (approx (Some 10%Q) (Some (1 # 10)%Q) None));
           Lit "."].
Proof.
  apply (description_quotes_condition
           (OnFeature (feature_test_on TestFeatureValueMean "score"
                         (sample_result 13))) 13).
  reflexivity.
Defined.

(** Describing an absent value.  The checks that format the value
    with a format specification raise [TypeError] on [None], whatever
    the metric and the condition are; the three correlation checks that
    test for [None] return their message without resolving any
    condition. *)
Theorem description_of_absent_value (t : ConditionTest) :
  (formats_value_first t = true -> get_description t None = Raise TypeError)
  /\ (forall message,
         absent_value_message t = Some message ->
         get_description t None = Return message).
Proof.
  split.
  - destruct t as [t|t|t|t|t]; cbn; try discriminate.
    + destruct (BaseCorr.cls t); try discriminate; reflexivity.
    + destruct (BaseFeature.cls t); try discriminate; reflexivity.
    + reflexivity.
  - intros message. destruct t as [t|t|t|t|t]; cbn; try discriminate.
    destruct (BaseCorr.cls t); try discriminate; intros [= <-]; reflexivity.
Qed.

Lemma description_of_absent_value_witness :
  get_description
    (OnFeature (feature_test_on TestFeatureValueMean "label" label_result))
    None
  = Raise TypeError
  /\ get_description
       (OnCorrelations (correlations_test_on TestTargetPredictionCorrelation None))
       None
     = Return [Lit "No target or prediction in the dataset."].
Proof.
  split.
  - apply (proj1 (description_of_absent_value
                    (OnFeature (feature_test_on TestFeatureValueMean "label"
                                  label_result)))).
    reflexivity.
  - apply (proj2 (description_of_absent_value
                    (OnCorrelations
                       (correlations_test_on TestTargetPredictionCorrelation
                          None)))).
    reflexivity.
Defined.

(** ** The other generators *)

(** [TestAllColumnsMostCommonValueShare] yields one most-common-value
    test per column of the catalogue, in its order, each without an
    explicit condition and with a metric of its own that is not yet
    computed; an empty catalogue yields no test. *)
Theorem generate_tests_most_common_value (columns_info : DatasetColumns) :
  map BaseFeature.column_name
      (TestAllColumnsMostCommonValueShare.generate_tests columns_info)
  = get_all_columns_list columns_info
  /\ Forall (fun t => BaseFeature.cls t = TestMostCommonValueShare
                      /\ has_condition (BaseFeature.condition t) = false
                      /\ BaseFeature.metric t = mkMetric tt None)
            (TestAllColumnsMostCommonValueShare.generate_tests columns_info).
Proof.
  destruct columns_info as [num cat all].
  unfold TestAllColumnsMostCommonValueShare.generate_tests.
  cbn [get_all_columns_list]. induction all as [|n all [IHn IHf]].
  - split; [reflexivity | constructor].
  - split.
    + cbn. f_equal. exact IHn.
    + constructor; [repeat split | exact IHf].
Qed.

(** The generators of out-of-range and out-of-list tests yield one
    share test per numeric, respectively categorical, feature, in the
    order of the catalogue and without bounds or values of their own;
    each generated test resolves its condition to [eq=approx(0)] before
    any metric has been computed. *)
Theorem generate_tests_out_of_range_and_list (columns_info : DatasetColumns) :
  (map BaseRange.column_name
       (TestNumColumnsOutOfRangeValues.generate_tests columns_info)
   = num_feature_names columns_info
   /\ Forall (fun t => BaseRange.cls t = TestShareOfOutRangeValues
                       /\ BaseRange.left t = None /\ BaseRange.right t = None
                       /\ BaseRange.metric t
                          = mkMetric (BaseRange.column_name t, None, None) None
                       /\ get_condition t = Return approx_zero)
             (TestNumColumnsOutOfRangeValues.generate_tests columns_info))
  /\ (map BaseList.column_name
          (TestCatColumnsOutOfListValues.generate_tests columns_info)
      = cat_feature_names columns_info
      /\ Forall (fun t => BaseList.cls t = TestShareOfOutListValues
                          /\ BaseList.values t = None
                          /\ BaseList.metric t
                             = mkMetric (BaseList.column_name t, None) None
                          /\ get_condition t = Return approx_zero)
                (TestCatColumnsOutOfListValues.generate_tests columns_info)).
Proof.
  destruct columns_info as [num cat all]. split.
  - unfold TestNumColumnsOutOfRangeValues.generate_tests.
    cbn [num_feature_names]. induction num as [|n num [IHn IHf]].
    + split; [reflexivity | constructor].
    + split.
      * cbn. f_equal. exact IHn.
      * constructor; [repeat split | exact IHf].
  - unfold TestCatColumnsOutOfListValues.generate_tests.
    cbn [cat_feature_names]. induction cat as [|n cat [IHn IHf]].
    + split; [reflexivity | constructor].
    + split.
      * cbn. f_equal. exact IHn.
      * constructor; [repeat split | exact IHf].
Qed.

(** ** The number of correlation changes *)

Lemma far_apart_sym (d x y : Q) :
  Qltb d (Qabs (x - y)) = Qltb d (Qabs (y - x)).
Proof.
  apply eq_true_iff_eq. rewrite !Qltb_lt.
  destruct (Qabs_cases (x - y)) as [[H ->]|[H ->]];
    destruct (Qabs_cases (y - x)) as [[H' ->]|[H' ->]]; split; intros; lra.
Qed.

Lemma row_violations_sym (d : Numeric) (r c : list Numeric) :
  length (List.filter (fun xy : Numeric * Numeric => Qltb d (Qabs (fst xy - snd xy)))
                      (combine r c))
  = length (List.filter (fun xy : Numeric * Numeric => Qltb d (Qabs (fst xy - snd xy)))
                        (combine c r)).
Proof.
  revert c. induction r as [|x r IH]; intros [|y c]; try reflexivity.
  cbn [combine List.filter fst snd]. rewrite (far_apart_sym d x y).
  destruct (Qltb d (Qabs (y - x))); cbn [length]; rewrite IH; reflexivity.
Qed.

Lemma count_violations_sym (ref cur : list (list Numeric)) (d : Numeric) :
  count_violations ref cur d = count_violations cur ref d.
Proof.
  unfold count_violations. revert cur.
  induction ref as [|r ref IH]; intros [|c cur]; try reflexivity.
  cbn [combine map list_sum fold_right fst snd].
  rewrite (row_violations_sym d r c). f_equal. apply IH.
Qed.

Lemma row_violations_same (d : Numeric) (r : list Numeric) :
  (0 <= d)%Q ->
  length (List.filter (fun xy : Numeric * Numeric => Qltb d (Qabs (fst xy - snd xy)))
                      (combine r r)) = 0%nat.
Proof.
  intros Hd. induction r as [|x r IH]; [reflexivity |].
  cbn [combine List.filter fst snd].
  assert (E : Qltb d (Qabs (x - x)) = false).
  { apply Qltb_false. destruct (Qabs_cases (x - x)) as [[H ->]|[H ->]]; lra. }
  rewrite E. exact IH.
Qed.

Lemma count_violations_same (m : list (list Numeric)) (d : Numeric) :
  (0 <= d)%Q -> count_violations m m d = 0%nat.
Proof.
  intros Hd. unfold count_violations. induction m as [|r m IH]; [reflexivity |].
  cbn [combine map list_sum fold_right fst snd].
  rewrite (row_violations_same d r Hd). exact IH.
Qed.

Lemma row_violations_antitone (d d' : Numeric) (r c : list Numeric) :
  (d <= d')%Q ->
  (length (List.filter (fun xy : Numeric * Numeric => Qltb d' (Qabs (fst xy - snd xy)))
                       (combine r c))
   <= length (List.filter (fun xy : Numeric * Numeric => Qltb d (Qabs (fst xy - snd xy)))
                          (combine r c)))%nat.
Proof.
  intros Hd. revert c. induction r as [|x r IH]; intros [|y c]; try apply Nat.le_refl.
  cbn [combine List.filter fst snd]. specialize (IH c).
  destruct (Qltb d' (Qabs (x - y))) eqn:E'.
  - assert (E : Qltb d (Qabs (x - y)) = true).
    { apply Qltb_lt. apply Qltb_lt in E'. eapply Qle_lt_trans; eassumption. }
    rewrite E. cbn [length]. lia.
  - destruct (Qltb d (Qabs (x - y))); cbn [length]; lia.
Qed.

Lemma count_violations_antitone (ref cur : list (list Numeric)) (d d' : Numeric) :
  (d <= d')%Q ->
  (count_violations ref cur d' <= count_violations ref cur d)%nat.
Proof.
  intros Hd. unfold count_violations. revert cur.
  induction ref as [|r ref IH]; intros [|c cur]; try apply Nat.le_refl.
  cbn [combine map list_sum fold_right fst snd].
  apply Nat.add_le_mono; [exact (row_violations_antitone d d' r c Hd) |].
  exact (IH cur).
Qed.

Lemma changes_value (corr_diff : Numeric) (self : BaseCorr.t)
    (r : DataQualityCorrelationMetricsResults) (reference_correlation : DataCorrelation) :
  result (BaseCorr.metric self) = Some r ->
  reference r = Some reference_correlation ->
  TestCorrelationChanges.calculate_value_for_test corr_diff self
  = Return (Some (inject_Z (Z.of_nat
                    (count_violations (correlation_matrix reference_correlation)
                                      (correlation_matrix (current r)) corr_diff))
                  / 2)%Q).
Proof.
  intros Hr Href. unfold TestCorrelationChanges.calculate_value_for_test.
  rewrite (get_result_computed _ _ Hr). cbn. rewrite Href. reflexivity.
Qed.

(** The number of correlation changes does not depend on which dataset
    is called current and which reference: a test on a result with the
    two correlation matrices exchanged computes the same value. *)
Theorem correlation_changes_symmetric (d : Numeric) (self self' : BaseCorr.t)
    (r r' : DataQualityCorrelationMetricsResults) (side side' : DataCorrelation) :
  result (BaseCorr.metric self) = Some r ->
  reference r = Some side ->
  result (BaseCorr.metric self') = Some r' ->
  reference r' = Some side' ->
  correlation_matrix side' = correlation_matrix (current r) ->
  correlation_matrix (current r') = correlation_matrix side ->
  TestCorrelationChanges.calculate_value_for_test d self
  = TestCorrelationChanges.calculate_value_for_test d self'.
Proof.
  intros Hr Href Hr' Href' Hcur Hside.
  rewrite (changes_value d self r side Hr Href).
  rewrite (changes_value d self' r' side' Hr' Href').
  rewrite Hcur, Hside.
  rewrite (count_violations_sym (correlation_matrix side)
             (correlation_matrix (current r)) d).
  reflexivity.
Qed.

Lemma correlation_changes_symmetric_witness :
  TestCorrelationChanges.calculate_value_for_test (1 # 4)
    (changes_test (1 # 4) (two_by_two (1 # 2)) (two_by_two (9 # 10)))
  = TestCorrelationChanges.calculate_value_for_test (1 # 4)
      (changes_test (1 # 4) (two_by_two (9 # 10)) (two_by_two (1 # 2))).
Proof.
  apply (correlation_changes_symmetric (1 # 4)
           (changes_test (1 # 4) (two_by_two (1 # 2)) (two_by_two (9 # 10)))
           (changes_test (1 # 4) (two_by_two (9 # 10)) (two_by_two (1 # 2)))
           (mkCorrelationResults
              (mkDataCorrelation None None None None (two_by_two (1 # 2)))
              (Some (mkDataCorrelation None None None None (two_by_two (9 # 10)))))
           (mkCorrelationResults
              (mkDataCorrelation None None None None (two_by_two (9 # 10)))
              (Some (mkDataCorrelation None None None None (two_by_two (1 # 2)))))
           (mkDataCorrelation None None None None (two_by_two (9 # 10)))
           (mkDataCorrelation None None None None (two_by_two (1 # 2))));
    reflexivity.
Defined.

(** Unchanged correlations are no violation: when the current and the
    reference correlation matrices are the same and [corr_diff] is not
    negative, the value under test is zero. *)
Theorem correlation_changes_none (corr_diff : Numeric) (self : BaseCorr.t)
    (r : DataQualityCorrelationMetricsResults) (side : DataCorrelation) :
  result (BaseCorr.metric self) = Some r ->
  reference r = Some side ->
  correlation_matrix side = correlation_matrix (current r) ->
  (0 <= corr_diff)%Q ->
  exists v, TestCorrelationChanges.calculate_value_for_test corr_diff self
            = Return (Some v)
            /\ (v == 0)%Q.
Proof.
  intros Hr Href Hsame Hd. eexists. split.
  - exact (changes_value corr_diff self r side Hr Href).
  - rewrite Hsame, (count_violations_same _ _ Hd). reflexivity.
Qed.

Lemma correlation_changes_none_witness :
  exists v,
    TestCorrelationChanges.calculate_value_for_test (1 # 4)
      (changes_test (1 # 4) (two_by_two (1 # 2)) (two_by_two (1 # 2)))
    = Return (Some v)
    /\ (v == 0)%Q.
Proof.
  apply (correlation_changes_none (1 # 4)
           (changes_test (1 # 4) (two_by_two (1 # 2)) (two_by_two (1 # 2)))
           (mkCorrelationResults
              (mkDataCorrelation None None None None (two_by_two (1 # 2)))
              (Some (mkDataCorrelation None None None None (two_by_two (1 # 2)))))
           (mkDataCorrelation None None None None (two_by_two (1 # 2))));
    try reflexivity.
  discriminate.
Defined.

(** A larger [corr_diff] never counts more changes: on the same metric
    result, the value computed with the larger threshold is at most the
    value computed with the smaller one. *)
Theorem correlation_changes_antitone (d d' : Numeric) (self : BaseCorr.t)
    (r : DataQualityCorrelationMetricsResults) (side : DataCorrelation) :
  result (BaseCorr.metric self) = Some r ->
  reference r = Some side ->
  (d <= d')%Q ->
  exists v v',
    TestCorrelationChanges.calculate_value_for_test d self = Return (Some v)
    /\ TestCorrelationChanges.calculate_value_for_test d' self = Return (Some v')
    /\ (v' <= v)%Q.
Proof.
  intros Hr Href Hd. eexists _, _. split; [| split].
  - exact (changes_value d self r side Hr Href).
  - exact (changes_value d' self r side Hr Href).
  - pose proof (count_violations_antitone (correlation_matrix side)
                  (correlation_matrix (current r)) d d' Hd) as Hle.
    apply Qmult_le_compat_r; [| discriminate].
    rewrite <- Zle_Qle. lia.
Qed.

Lemma correlation_changes_antitone_witness :
  exists v v',
    TestCorrelationChanges.calculate_value_for_test (1 # 4)
      (changes_test (1 # 4) (two_by_two (1 # 2)) (two_by_two (9 # 10)))
    = Return (Some v)
    /\ TestCorrelationChanges.calculate_value_for_test (1 # 2)
         (changes_test (1 # 4) (two_by_two (1 # 2)) (two_by_two (9 # 10)))
       = Return (Some v')
    /\ (v' <= v)%Q.
Proof.
  apply (correlation_changes_antitone (1 # 4) (1 # 2)
           (changes_test (1 # 4) (two_by_two (1 # 2)) (two_by_two (9 # 10)))
           (mkCorrelationResults
              (mkDataCorrelation None None None None (two_by_two (1 # 2)))
              (Some (mkDataCorrelation None None None None (two_by_two (9 # 10)))))
           (mkDataCorrelation None None None None (two_by_two (9 # 10))));
    try reflexivity.
  discriminate.
Defined.

(** ** A constructed quantile test *)

(** What a successful construction leaves: a quantile test built on an
    injected metric has neither a column nor a quantile of its own, so
    that its by-feature group is [None]; a test built without a metric
    has a quantile and a fresh metric made of exactly its column and
    that quantile.  In both cases the condition is made of the eight
    condition arguments. *)
Theorem quantile_test_after_construction
    (column_name : option string) (quantile : option Numeric)
    (eq : option EqTarget) (gt gte : option Numeric)
    (is_in : option (list Scalar)) (lt lte : option Numeric)
    (not_eq : option EqTarget) (not_in : option (list Scalar))
    (metric : option DataQualityValueQuantileMetrics)
    (t : TestValueQuantile.t) :
  TestValueQuantile.init column_name quantile
    eq gt gte is_in lt lte not_eq not_in metric = Return t ->
  TestValueQuantile.condition t
  = mkCondition eq gt gte is_in lt lte not_eq not_in
  /\ TestValueQuantile.column_name t = column_name
  /\ TestValueQuantile.quantile t = quantile
  /\ match metric with
     | Some m =>
         TestValueQuantile.metric t = m
         /\ column_name = None /\ quantile = None
         /\ test_groups t = {[ ByFeature_id := None ]}
     | None =>
         exists q, quantile = Some q
                   /\ TestValueQuantile.metric t = mkMetric (column_name, q) None
     end.
Proof.
  unfold TestValueQuantile.init.
  destruct metric as [m|], column_name as [c|], quantile as [q|]; cbn;
    try discriminate; intros [= <-]; cbn; repeat split; eauto.
Qed.

Lemma quantile_test_after_construction_witness :
  exists t,
    TestValueQuantile.init None None None (Some 0%Q) None None None None None None
      (Some (mkMetric (Some "score", 1 # 2) None))
    = Return t
    /\ test_groups t = {[ ByFeature_id := None ]}.
Proof.
  eexists. split; [reflexivity |].
  apply (quantile_test_after_construction None None
           None (Some 0%Q) None None None None None None
           (Some (mkMetric (Some "score", 1 # 2) None)) _ eq_refl).
Defined.

(** ** The ranges drawn for the value-range tests *)

(** Bounds that are given and not zero: the three renderers draw the
    range between [left] and [right].  A bound equal to zero: the
    renderers of the range test and of the number test still draw the
    given range, while the renderer of the share test, which tests its
    bounds for truth, draws the range of the reference data. *)
Theorem zero_bound_is_dropped_by_share_renderer
    (ref_min ref_max : DataQualityValueRangeMetricsResults -> option Numeric)
    (obj : BaseRange.t) (plain : TestValueRange.t) (l r : Numeric) :
  BaseRange.left obj = Some l -> BaseRange.right obj = Some r ->
  TestValueRange.left plain = Some l -> TestValueRange.right plain = Some r ->
  TestValueRangeRenderer_condition ref_min ref_max plain
  = Return (condition_between (Some l) (Some r))
  /\ TestNumberOfOutRangeValuesRenderer_condition ref_min ref_max obj
     = Return (condition_between (Some l) (Some r))
  /\ (~ (l == 0)%Q -> ~ (r == 0)%Q ->
      TestShareOfOutRangeValuesRenderer_condition ref_min ref_max obj
      = Return (condition_between (Some l) (Some r)))
  /\ ((l == 0)%Q \/ (r == 0)%Q ->
      forall res, result (BaseRange.metric obj) = Some res ->
      TestShareOfOutRangeValuesRenderer_condition ref_min ref_max obj
      = Return (condition_between (ref_min res) (ref_max res))).
Proof.
  intros Hl Hr Hpl Hpr. repeat split.
  - unfold TestValueRangeRenderer_condition. rewrite Hpl, Hpr. reflexivity.
  - unfold TestNumberOfOutRangeValuesRenderer_condition. rewrite Hl, Hr.
    reflexivity.
  - intros Hl0 Hr0. unfold TestShareOfOutRangeValuesRenderer_condition.
    rewrite Hl, Hr. cbn.
    destruct (Qeq_bool l 0) eqn:El;
      [exfalso; apply Hl0, Qeq_bool_iff; exact El |].
    destruct (Qeq_bool r 0) eqn:Er;
      [exfalso; apply Hr0, Qeq_bool_iff; exact Er |].
    reflexivity.
  - intros Hzero res Hres. unfold TestShareOfOutRangeValuesRenderer_condition.
    rewrite Hl, Hr. cbn.
    assert (E : negb (Qeq_bool l 0) && negb (Qeq_bool r 0) = false).
    { destruct Hzero as [H|H]; apply Qeq_bool_iff in H; rewrite H;
        [reflexivity | apply andb_false_r]. }
    rewrite E, (get_result_computed _ _ Hres). reflexivity.
Qed.

Lemma zero_bound_is_dropped_by_share_renderer_witness :
  TestNumberOfOutRangeValuesRenderer_condition (fun _ => Some 5%Q)
    (fun _ => Some 95%Q)
    (BaseRange.init TestNumberOfOutRangeValues "score" (Some 0%Q) (Some 100%Q)
       None None None None None None None None
       (Some (mkMetric ("score", Some 0%Q, Some 100%Q)
                (Some (mkRangeResults 0 0 10)))))
  = Return (condition_between (Some 0%Q) (Some 100%Q))
  /\ TestShareOfOutRangeValuesRenderer_condition (fun _ => Some 5%Q)
       (fun _ => Some 95%Q)
       (BaseRange.init TestNumberOfOutRangeValues "score" (Some 0%Q) (Some 100%Q)
          None None None None None None None None
          (Some (mkMetric ("score", Some 0%Q, Some 100%Q)
                   (Some (mkRangeResults 0 0 10)))))
     = Return (condition_between (Some 5%Q) (Some 95%Q)).
Proof.
  destruct (zero_bound_is_dropped_by_share_renderer
              (fun _ => Some 5%Q) (fun _ => Some 95%Q)
              (BaseRange.init TestNumberOfOutRangeValues "score"
                 (Some 0%Q) (Some 100%Q)
                 None None None None None None None None
                 (Some (mkMetric ("score", Some 0%Q, Some 100%Q)
                          (Some (mkRangeResults 0 0 10)))))
              (TestValueRange.init "score" (Some 0%Q) (Some 100%Q) None)
              0 100 eq_refl eq_refl eq_refl eq_refl)
    as (_ & Hnumber & _ & Hshare).
  split; [exact Hnumber |].
  apply (Hshare (or_introl (Qeq_refl 0)) (mkRangeResults 0 0 10) eq_refl).
Defined.

(** ** The error bias of both datasets *)

Lemma fold_merge_feature {V : Type} (error_bias reference_bias : gmap string (gmap string V))
    (feature : string) :
  map_fold (RegressionPerformanceMetrics.merge_feature V) error_bias reference_bias !! feature
  = merged_entry (error_bias !! feature) (reference_bias !! feature).
Proof.
  revert feature.
  apply (map_fold_weak_ind
           (fun (acc : gmap string (gmap string V)) (seen : gmap string (gmap string V)) =>
              forall feature,
                acc !! feature
                = merged_entry (error_bias !! feature) (seen !! feature))).
  - intros feature. rewrite lookup_empty. reflexivity.
  - intros i b seen acc Hfresh IH feature.
    unfold RegressionPerformanceMetrics.merge_feature.
    pose proof (IH i) as Hi. rewrite Hfresh in Hi. cbn in Hi.
    destruct (decide (i = feature)) as [->|Hne].
    + rewrite lookup_insert_eq. rewrite Hi.
      destruct (error_bias !! feature) as [own|];
        rewrite lookup_insert_eq; reflexivity.
    + rewrite (lookup_insert_ne seen) by exact Hne. rewrite <- (IH feature).
      destruct (acc !! i); rewrite lookup_insert_ne by exact Hne; reflexivity.
Qed.

Lemma merged_lookup {V : Type} (error_bias : gmap string (gmap string V))
    (reference : option (option (gmap string (gmap string V))))
    (feature : string) :
  RegressionPerformanceMetrics.merged_error_bias V error_bias reference !! feature
  = merged_entry (error_bias !! feature)
      (reference ≫= (fun o => o ≫= (fun b => b !! feature))).
Proof.
  unfold RegressionPerformanceMetrics.merged_error_bias.
  destruct reference as [[reference_bias|]|]; cbn; try reflexivity.
  case_bool_decide as Hempty.
  - subst reference_bias. rewrite lookup_empty. reflexivity.
  - apply fold_merge_feature.
Qed.

(** The error bias that [calculate] returns, feature by feature.  A
    feature of the current error bias alone keeps its statistics, a
    feature of the reference error bias alone gets the reference
    statistics, and a feature of both gets the statistics of both, the
    reference value standing under a key that both have.  Without
    reference data, or with a reference error bias that is [None] or
    empty, the current error bias is returned as it is. *)
Theorem error_bias_of_both_datasets {V : Type}
    (error_bias : gmap string (gmap string V))
    (reference : option (option (gmap string (gmap string V))))
    (feature : string) :
  let reference_entry := reference ≫= (fun o => o ≫= (fun b => b !! feature)) in
  (reference_entry = None ->
   RegressionPerformanceMetrics.merged_error_bias V error_bias reference !! feature = error_bias !! feature)
  /\ (forall b, reference_entry = Some b -> error_bias !! feature = None ->
         RegressionPerformanceMetrics.merged_error_bias V error_bias reference !! feature = Some b)
  /\ (forall b own, reference_entry = Some b -> error_bias !! feature = Some own ->
         exists both,
           RegressionPerformanceMetrics.merged_error_bias V error_bias reference !! feature = Some both
           /\ forall key,
                both !! key = match b !! key with
                              | Some v => Some v
                              | None => own !! key
                              end).
Proof.
  cbn zeta. repeat split.
  - intros Hnone. rewrite merged_lookup, Hnone. reflexivity.
  - intros b Hb Hown. rewrite merged_lookup, Hb, Hown. reflexivity.
  - intros b own Hb Hown. exists (b ∪ own). split.
    + rewrite merged_lookup, Hb, Hown. reflexivity.
    + intros key. rewrite lookup_union.
      destruct (b !! key), (own !! key); reflexivity.
Qed.

(** The features of the returned error bias are the features of the
    current one together with the features of the reference one. *)
Theorem error_bias_features {V : Type}
    (error_bias reference_bias : gmap string (gmap string V)) :
  dom (RegressionPerformanceMetrics.merged_error_bias V error_bias (Some (Some reference_bias)))
  = dom error_bias ∪ dom reference_bias.
Proof.
  apply set_eq. intros feature.
  rewrite elem_of_union, !elem_of_dom, merged_lookup. cbn.
  destruct (reference_bias !! feature) as [b|], (error_bias !! feature) as [c|];
    cbn; split; intros H; eauto;
    try (destruct H as [H|H]; exact H); try (destruct H as [[? H]|[? H]]; discriminate).
Qed.

Lemma error_bias_of_both_datasets_witness :
  RegressionPerformanceMetrics.merged_error_bias Z
    {[ "age" := {[ "current_majority" := 1%Z ]} ]}
    (Some (Some {[ "age" := {[ "ref_majority" := 2%Z ]} ]}))
    !! "city"
  = None
  /\ exists both,
       RegressionPerformanceMetrics.merged_error_bias Z
         {[ "age" := {[ "current_majority" := 1%Z ]} ]}
         (Some (Some {[ "age" := {[ "ref_majority" := 2%Z ]} ]}))
         !! "age"
       = Some both
       /\ both !! "current_majority" = Some 1%Z.
Proof.
  destruct (error_bias_of_both_datasets
              (V := Z)
              {[ "age" := {[ "current_majority" := 1%Z ]} ]}
              (Some (Some {[ "age" := {[ "ref_majority" := 2%Z ]} ]}))
              "city") as (Hnone & _ & _).
  split; [apply Hnone; reflexivity |].
  destruct (error_bias_of_both_datasets
              (V := Z)
              {[ "age" := {[ "current_majority" := 1%Z ]} ]}
              (Some (Some {[ "age" := {[ "ref_majority" := 2%Z ]} ]}))
              "age") as (_ & _ & Hboth).
  destruct (Hboth {[ "ref_majority" := 2%Z ]} {[ "current_majority" := 1%Z ]}
              eq_refl eq_refl) as (both & Hlookup & Hkeys).
  exists both. split; [exact Hlookup |].
  rewrite (Hkeys "current_majority"). reflexivity.
Defined.

(** ** The JSON of the regression performance *)

(** [render_json] returns exactly when the result has the three plot
    entries; the dictionary it returns has none of them and has every
    other entry as it was. *)
Theorem render_json_drops_plot_entries {J : Type} (fields : gmap string J) :
  (returns (RegressionPerformanceMetricsRenderer.render_json J fields)
   <-> is_Some (fields !! "hist_for_plot")
       /\ is_Some (fields !! "vals_for_plots")
       /\ is_Some (fields !! "me_hist_for_plot"))
  /\ (forall written,
         RegressionPerformanceMetricsRenderer.render_json J fields
         = Return written ->
         written !! "hist_for_plot" = None
         /\ written !! "vals_for_plots" = None
         /\ written !! "me_hist_for_plot" = None
         /\ forall key,
              key <> "hist_for_plot" -> key <> "vals_for_plots" ->
              key <> "me_hist_for_plot" ->
              written !! key = fields !! key).
Proof.
  unfold RegressionPerformanceMetricsRenderer.render_json,
    RegressionPerformanceMetricsRenderer.pop, returns.
  destruct (fields !! "hist_for_plot") as [h|] eqn:Eh; cbn.
  2:{ split; [split |]; [intros [? ?]; discriminate
                        | intros [[? ?] _]; discriminate
                        | intros ?; discriminate]. }
  rewrite lookup_delete_ne by discriminate.
  destruct (fields !! "vals_for_plots") as [v|] eqn:Ev; cbn.
  2:{ split; [split |]; [intros [? ?]; discriminate
                        | intros (_ & [? ?] & _); discriminate
                        | intros ?; discriminate]. }
  rewrite !lookup_delete_ne by discriminate.
  destruct (fields !! "me_hist_for_plot") as [m|] eqn:Em; cbn.
  2:{ split; [split |]; [intros [? ?]; discriminate
                        | intros (_ & _ & [? ?]); discriminate
                        | intros ?; discriminate]. }
  split.
  - split; [intros _; repeat split; eauto | intros _; eauto].
  - intros written [= <-]. repeat split.
    + rewrite !lookup_delete_ne by discriminate. apply lookup_delete_eq.
    + rewrite lookup_delete_ne by discriminate. apply lookup_delete_eq.
    + apply lookup_delete_eq.
    + intros key H1 H2 H3. rewrite !lookup_delete_ne by congruence.
      reflexivity.
Qed.

Lemma render_json_drops_plot_entries_witness :
  exists written,
    RegressionPerformanceMetricsRenderer.render_json Z
      {[ "rmse" := 3%Z; "hist_for_plot" := 0%Z; "vals_for_plots" := 0%Z;
         "me_hist_for_plot" := 0%Z ]}
    = Return written
    /\ written !! "hist_for_plot" = None
    /\ written !! "rmse" = Some 3%Z.
Proof.
  destruct (RegressionPerformanceMetricsRenderer.render_json Z
              {[ "rmse" := 3%Z; "hist_for_plot" := 0%Z;
                 "vals_for_plots" := 0%Z; "me_hist_for_plot" := 0%Z ]})
    as [written|e] eqn:Hw; [| discriminate Hw].
  exists written. split; [reflexivity |].
  destruct (proj2 (render_json_drops_plot_entries
                     (J := Z)
                     {[ "rmse" := 3%Z; "hist_for_plot" := 0%Z;
                        "vals_for_plots" := 0%Z; "me_hist_for_plot" := 0%Z ]})
              written Hw) as (Hh & _ & _ & Hother).
  split; [exact Hh |].
  rewrite (Hother "rmse"); [reflexivity | | |]; discriminate.
Defined.

Lemma minimum_of_undefined_reference_witness :
  get_condition
    (OnFeature (feature_test_on TestFeatureValueMin "label" label_in_both))
  = Return empty_condition.
Proof.
  apply (minimum_of_undefined_reference
           (feature_test_on TestFeatureValueMin "label" label_in_both)
           label_in_both (mkDataQualityStats {[ "label" := label_stats ]})
           label_stats);
    reflexivity.
Defined.
